(** * boost::thrd_lite hardware concurrency: a shallow embedding

    Source: include/boost/sweater/threading/hardware_concurrency.cpp

    The translation unit is compiled in one of three ways (chosen by the
    preprocessor), reads up to three cgroup files through
    open/read/close, parses them with strtol/atoi and caches the result in
    a constant global.  The model keeps those pieces apart:

    - C integers are [Z] with the conversions written out ([to_int],
      [to_hc]);
    - the file system is a finite map from paths to files, a missing key
      being a failing [open];
    - [BOOST_VERIFY] is an error monad whose only error is an aborted
      process;
    - the uninitialised stack arrays are explicit inputs. *)

From Stdlib Require Import ZArith Ascii String List Lia Bool.
From Stdlib Require DecimalString DecimalZ DecimalPos.
From stdpp Require Import base strings list gmap.

Local Open Scope Z_scope.

(** ** C integers *)

Module CInt.

Definition INT_MAX : Z := 2147483647.
Definition INT_MIN : Z := -2147483648.
(** LP64: [long] has 64 bits on the Linux targets that have cgroups. *)
Definition LONG_MAX : Z := 9223372036854775807.
Definition LONG_MIN : Z := -9223372036854775808.

(** Conversion of an out-of-range value to [int]: reduction modulo 2^32
    into the signed range.  It is what [static_cast<int>] does to a
    [long]. *)
Definition to_int (z : Z) : Z := (z + 2147483648) mod 4294967296 - 2147483648.

Definition in_int (z : Z) : Prop := INT_MIN <= z <= INT_MAX.

(** [a + b] on [int].  A sum that leaves the range of [int] is undefined
    in C++; the reduction here is what a build without optimisation
    computes, an optimising build is free to do otherwise.  Apart from
    the evaluation under C1, every property below that reaches line 119
    of the source assumes that the sum is an [int] ([sum_in_int],
    [line_119_defined]). *)
Definition int_add (a b : Z) : Z := to_int (a + b).

(** [a / b] on [int]: C++ division truncates towards zero. *)
Definition int_div (a b : Z) : Z := to_int (Z.quot a b).

(** [strtol] saturates at the ends of [long]. *)
Definition clamp_long (z : Z) : Z := Z.max LONG_MIN (Z.min LONG_MAX z).

End CInt.
Export CInt.

(** ** <cctype> and <cstdlib>: strtol and atoi on a character array *)

Module CStr.

Definition code (c : ascii) : Z := Z.of_nat (nat_of_ascii c).

Definition isdigit (c : ascii) : bool := (48 <=? code c) && (code c <=? 57).

(** space, and \t \n \v \f \r *)
Definition isspace (c : ascii) : bool :=
  (code c =? 32) || ((9 <=? code c) && (code c <=? 13)).

Definition is_sign (c : ascii) : bool := (code c =? 43) || (code c =? 45).

Definition digit_value (c : ascii) : Z := code c - 48.

Fixpoint skip_space (s : list ascii) : list ascii :=
  match s with
  | c :: s' => if isspace c then skip_space s' else s
  | [] => []
  end.

(** The run of decimal digits at the head of [s], folded into [acc],
    and what follows it. *)
Fixpoint digits (acc : Z) (s : list ascii) : Z * list ascii :=
  match s with
  | c :: s' =>
      if isdigit c then digits (acc * 10 + digit_value c) s' else (acc, s)
  | [] => (acc, [])
  end.

(** [strtol( s, &end, 10 )]: the value and [end].  Leading white space
    and one sign are skipped; without a digit after them nothing is
    converted: the value is 0 and [end] is [s] itself.  The scan stops
    at the first character that is not a digit, the terminating NUL
    being one of them; the end of the list stands for whatever follows
    the array in memory and stops the scan as well. *)
Definition strtol (s : list ascii) : Z * list ascii :=
  let s1 := skip_space s in
  let '(neg, s2) :=
    match s1 with
    | c :: r => if is_sign c then (code c =? 45, r) else (false, s1)
    | [] => (false, s1)
    end in
  match s2 with
  | c :: _ =>
      if isdigit c
      then let '(n, rest) := digits 0 s2 in
           (clamp_long (if neg then - n else n), rest)
      else (0, s)
  | [] => (0, s)
  end.

(** [std::atoi( s )] is [(int) strtol( s, nullptr, 10 )]. *)
Definition atoi (s : list ascii) : Z := to_int (fst (strtol s)).

Definition chars (s : string) : list ascii := list_ascii_of_string s.

Definition NUL : ascii := "000"%char.
Definition LF : ascii := "010"%char.

End CStr.
Export CStr.

(** ** The build

    The preprocessor picks one implementation; the assertion macro and
    the result type come from headers. *)

(** The three branches of the standard implementation:
    [__EMSCRIPTEN_PTHREADS__], [__linux__], and the rest. *)
Inductive target : Type :=
| EmscriptenPthreads
| Linux
| OtherTarget.

Inductive implementation : Type :=
| SingleThreaded              (* BOOST_SWEATER_MAX_HARDWARE_CONCURRENCY == 1 *)
| DockerLimits                (* BOOST_SWEATER_DOCKER_LIMITS *)
| Standard (t : target).      (* generic/standard impl *)

Record build : Type := Build {
  impl : implementation;
  (** [__ANDROID__] *)
  android : bool;
  (** whether [BOOST_VERIFY] checks its expression (it always evaluates
      it); off under NDEBUG or BOOST_DISABLE_ASSERTS *)
  verify_checks : bool;
  (** number of bits of [hardware_concurrency_t] *)
  hc_bits : positive;
}.

Definition hc_modulus (b : build) : Z := 2 ^ Z.pos (hc_bits b).

(** Largest value of [hardware_concurrency_t]. *)
Definition hc_max (b : build) : Z := hc_modulus b - 1.

(** Modelled from the spec: [hardware_concurrency_t] is declared in
    hardware_concurrency.hpp, which is not among the sources; the spec
    only says that the public queries return a positive integer.  It is
    taken as an unsigned integer type of [hc_bits] bits, the width being
    left open, so that [static_cast<hardware_concurrency_t>( z )] reduces
    [z] modulo 2^[hc_bits]. *)
Definition to_hc (b : build) (z : Z) : Z := z mod hc_modulus b.

(** ** Files *)

Inductive read_result : Type :=
| ReadError                        (* read() returns -1 *)
| ReadBytes (data : list ascii).   (* what the kernel has to deliver *)

Record file : Type := File {
  file_read : read_result;
  (** whether close() returns 0 *)
  file_close : bool;
}.

(** [::read( fd, buf, count )]: the return value and the array
    afterwards.  A failing read leaves the array as it was; a successful
    one overwrites its first bytes and nothing else: no terminator is
    written. *)
Definition read (fd : file) (buf : list ascii) (count : nat) : Z * list ascii :=
  match file_read fd with
  | ReadError => (-1, buf)
  | ReadBytes data =>
      let n := Nat.min (length data) count in
      (Z.of_nat n, take n data ++ drop n buf)
  end.

(** A local [char a[ n ]]: [mem] is what the stack holds there on entry
    (cut or padded to [n] bytes). *)
Definition char_array (n : nat) (mem : list ascii) : list ascii := resize n NUL mem.

(** ** BOOST_VERIFY: the process either goes on or is aborted *)

Inductive failure : Type :=
| ReadFilledBuffer   (* read( ... ) < signed( sizeof( ... ) ) *)
| CloseFailed.       (* ::close( fd ) == 0 *)

Inductive result (A : Type) : Type :=
| Ret (a : A)
| Abort (f : failure).
Arguments Ret {A} a.
Arguments Abort {A} f.

#[global] Instance result_ret : MRet result := @Ret.
#[global] Instance result_bind : MBind result := fun A B k m =>
  match m with
  | Ret a => k a
  | Abort f => Abort f
  end.

Definition BOOST_VERIFY (b : build) (f : failure) (expr : bool) : result unit :=
  if verify_checks b && negb expr then Abort f else Ret tt.

(** ** The quota reader *)

Definition cpu_max : string := "/sys/fs/cgroup/cpu.max".
Definition cpu_cfs_quota_us : string := "/sys/fs/cgroup/cpu/cpu.cfs_quota_us".
Definition cpu_cfs_period_us : string := "/sys/fs/cgroup/cpu/cpu.cfs_period_us".

(** What the quota reader finds when the process starts. *)
Record machine : Type := Machine {
  (** [open] fails on the paths that are not in the map *)
  fs : gmap string file;
  (** stack contents under [value_pair], and under [value] in the two
      calls of [read_int] *)
  value_pair_mem : list ascii;
  quota_value_mem : list ascii;
  period_value_mem : list ascii;
}.

(** [char value_pair[ 128 ]; value_pair[ 0 ] = 0;] *)
Definition value_pair_init (m : machine) : list ascii :=
  <[0%nat := NUL]> (char_array 128 (value_pair_mem m)).

Definition read_int (b : build) (fs : gmap string file) (mem : list ascii)
    (file_path : string) : result Z :=
  match fs !! file_path with
  | None => Ret (-1)
  | Some fd =>
      let '(n, value) := read fd (char_array 64 mem) 64 in
      BOOST_VERIFY b ReadFilledBuffer (n <? 64) ;;
      BOOST_VERIFY b CloseFailed (file_close fd) ;;
      Ret (atoi value)
  end.

(** Lines 104-106 of the source: quota, then period from where the quota
    ended, each converted from [long] to [int]. *)
Definition parse_pair (value_pair : list ascii) : Z * Z :=
  let '(quota, cfs_period_ptr) := strtol value_pair in
  let '(period, _) := strtol cfs_period_ptr in
  (to_int quota, to_int period).

(** Lines 115-121 of the source: the value returned for the parsed pair. *)
Definition docker_limit (cfs_quota cfs_period : Z) : Z :=
  if (cfs_quota >? 0) && (cfs_period >? 0)
  then Z.max (to_int (int_div (int_add cfs_quota (int_div cfs_period 2)) cfs_period)) 1
  else -1.

Definition get_docker_limit (b : build) (m : machine) : result Z :=
  '(cfs_quota, cfs_period) ←
    match fs m !! cpu_max with
    | Some fd =>
        (* New cgroup v2 format *)
        let '(n, value_pair) := read fd (value_pair_init m) 128 in
        BOOST_VERIFY b ReadFilledBuffer (n <? 128) ;;
        BOOST_VERIFY b CloseFailed (file_close fd) ;;
        Ret (parse_pair value_pair)
    | None =>
        (* Fall back to old cgroup v1 format *)
        cfs_quota ← read_int b (fs m) (quota_value_mem m) cpu_cfs_quota_us;
        cfs_period ← read_int b (fs m) (period_value_mem m) cpu_cfs_period_us;
        Ret (cfs_quota, cfs_period)
    end;
  Ret (docker_limit cfs_quota cfs_period).

(** A file the kernel serves with [text] and a line feed. *)
Definition kernel_file (text : string) : file :=
  File (ReadBytes (chars text ++ [LF])) true.

Definition debug_docker : build := Build DockerLimits false true 16.

(** ** The cached quota and the public queries *)

(** [struct docker_quota_t]: a constant member set by the constructor. *)
Record docker_quota_t : Type := DockerQuota { value : Z }.

Definition docker_quota_t_ctor (b : build) (m : machine) : result docker_quota_t :=
  limit ← get_docker_limit b m; Ret (DockerQuota limit).

(** What the operating system answers at the time of a call.  Where the
    C library of Android lacks [get_nprocs] and [get_nprocs_conf], the
    two are [sysconf( _SC_NPROCESSORS_ONLN )] and
    [sysconf( _SC_NPROCESSORS_CONF )] converted to [int]. *)
Record os_state : Type := OS {
  get_nprocs_conf : Z;
  get_nprocs : Z;
  emscripten_has_threading_support : Z;
  emscripten_num_logical_cores : Z;
  (** [std::thread::hardware_concurrency()] *)
  std_hardware_concurrency : Z;
  android_get_device_api_level : Z;
}.

(** What [get_hardware_concurrency_max] converts to its result type: the
    operand of the cast, or the literal of the single-threaded build. *)
Definition max_operand (b : build) (docker_quota : docker_quota_t) (os : os_state) : Z :=
  match impl b with
  | SingleThreaded => 1
  | DockerLimits =>
      if bool_decide (value docker_quota ≠ -1) then value docker_quota
      else get_nprocs_conf os
  | Standard EmscriptenPthreads =>
      if bool_decide (emscripten_has_threading_support os ≠ 0)
      then emscripten_num_logical_cores os else 1
  | Standard Linux => get_nprocs_conf os
  | Standard OtherTarget => std_hardware_concurrency os
  end.

Definition get_hardware_concurrency_max (b : build) (docker_quota : docker_quota_t)
    (os : os_state) : Z :=
  to_hc b (max_operand b docker_quota os).

(** The operand of the cast in [hardware_concurrency_current]; under
    Emscripten it is the result of [get_hardware_concurrency_max]. *)
Definition current_operand (b : build) (docker_quota : docker_quota_t) (os : os_state) : Z :=
  match impl b with
  | SingleThreaded => 1
  | DockerLimits =>
      if bool_decide (value docker_quota ≠ -1) then value docker_quota
      else get_nprocs os
  | Standard EmscriptenPthreads => get_hardware_concurrency_max b docker_quota os
  | Standard Linux => get_nprocs os
  | Standard OtherTarget => std_hardware_concurrency os
  end.

Definition hardware_concurrency_current (b : build) (docker_quota : docker_quota_t)
    (os : os_state) : Z :=
  to_hc b (current_operand b docker_quota os).

(** ** The capability flag *)

(** [slow_thread_signals_t::slow_thread_signals_t()], pre Android 7. *)
Definition slow_thread_signals_t_ctor (os : os_state) : bool :=
  android_get_device_api_level os <? 24.

(** Modelled from the spec: off Android the flag is not defined in this
    file but in hardware_concurrency.hpp, which is not among the sources;
    the spec has it statically false on every other platform. *)
Definition slow_thread_signals (b : build) (os : os_state) : bool :=
  if android b then slow_thread_signals_t_ctor os else false.

(** ** Where line 119 is defined *)

(** Lines 92-113 of the source: the pair that reaches the test of line
    115, as [get_docker_limit] computes it. *)
Definition cfs_pair (b : build) (m : machine) : result (Z * Z) :=
  match fs m !! cpu_max with
  | Some fd =>
      let '(n, value_pair) := read fd (value_pair_init m) 128 in
      BOOST_VERIFY b ReadFilledBuffer (n <? 128) ;;
      BOOST_VERIFY b CloseFailed (file_close fd) ;;
      Ret (parse_pair value_pair)
  | None =>
      cfs_quota ← read_int b (fs m) (quota_value_mem m) cpu_cfs_quota_us;
      cfs_period ← read_int b (fs m) (period_value_mem m) cpu_cfs_period_us;
      Ret (cfs_quota, cfs_period)
  end.

(** The addition of line 119 is not reached, or its sum is an [int]. *)
Definition sum_in_int (cfs_quota cfs_period : Z) : Prop :=
  0 < cfs_quota -> 0 < cfs_period -> cfs_quota + cfs_period / 2 <= INT_MAX.

(** The same for the pair the reader finds on [m]. *)
Definition line_119_defined (b : build) (m : machine) : Prop :=
  match cfs_pair b m with
  | Ret (cfs_quota, cfs_period) => sum_in_int cfs_quota cfs_period
  | Abort _ => True
  end.

(** ** Counts the result type can hold *)

Definition usable_count (b : build) (n : Z) : Prop := 1 <= n <= hc_max b.

(** The quota, when there is one, fits [hardware_concurrency_t], and
    every count the build asks the operating system for is usable. *)
Definition values_usable (b : build) (dq : docker_quota_t) (os : os_state) : Prop :=
  match impl b with
  | SingleThreaded => True
  | DockerLimits =>
      if bool_decide (value dq ≠ -1) then value dq <= hc_max b
      else usable_count b (get_nprocs_conf os) /\ usable_count b (get_nprocs os)
  | Standard EmscriptenPthreads =>
      emscripten_has_threading_support os ≠ 0 ->
      usable_count b (emscripten_num_logical_cores os)
  | Standard Linux =>
      usable_count b (get_nprocs_conf os) /\ usable_count b (get_nprocs os)
  | Standard OtherTarget => usable_count b (std_hardware_concurrency os)
  end.

(** cpu.max of a group limited to two and a half processors. *)
Definition two_and_a_half : machine :=
  Machine {[ cpu_max := File (ReadBytes (chars "250000 100000" ++ [LF])) true ]}
          [] [] [].

(** ** The rounding rule in the words of the specification *)

(** [max(1, (quota + period/2) / period)] over the integers. *)
Definition round_half_up_cores (quota period : Z) : Z :=
  Z.max 1 ((quota + period / 2) / period).

(** ** Two calls *)

(** The two states differ at most in what changes while a process runs:
    the number of processors that are online (and nothing else). *)
Definition configured_agree (os1 os2 : os_state) : Prop :=
  get_nprocs_conf os1 = get_nprocs_conf os2 /\
  emscripten_has_threading_support os1 = emscripten_has_threading_support os2 /\
  emscripten_num_logical_cores os1 = emscripten_num_logical_cores os2 /\
  std_hardware_concurrency os1 = std_hardware_concurrency os2.

(** ** File contents *)

(** The first token of [data] is text: after the white space comes a
    character that is neither a digit nor a sign, as in "max". *)
Definition starts_textual (data : list ascii) : bool :=
  match skip_space data with
  | c :: _ => negb (isdigit c) && negb (is_sign c)
  | [] => false
  end.

(** No check of [BOOST_VERIFY] on [fd] can fail at [close]. *)
Definition close_verified (b : build) (fd : file) : Prop :=
  verify_checks b = false \/ file_close fd = true.

(** Reading [data] into an array of [count] bytes and closing [fd] pass
    the checks of [BOOST_VERIFY], or the build has none. *)
Definition checks_pass (b : build) (fd : file) (data : list ascii) (count : nat) : Prop :=
  verify_checks b = false \/ ((length data < count)%nat /\ file_close fd = true).

(** ** Builds and inputs used below *)

Definition release_docker : build := Build DockerLimits false false 16.
Definition debug_standard : build := Build (Standard OtherTarget) false true 16.
Definition debug_android : build := Build (Standard Linux) true true 8.

Definition no_quota : docker_quota_t := DockerQuota (-1).

(** A file that opens and closes but cannot be read. *)
Definition unreadable : file := File ReadError true.

(** cpu.max is missing, the two legacy files cannot be read, and the
    stack holds digits where [read_int] has its array. *)
Definition legacy_unreadable : machine :=
  Machine {[ cpu_cfs_quota_us := unreadable; cpu_cfs_period_us := unreadable ]}
          [] (chars "200000") (chars "100000").

(** cpu.max is missing, the legacy quota is 200000, the legacy period
    cannot be read, and the array of the second call of [read_int] still
    holds the bytes the first call read. *)
Definition legacy_period_unreadable : machine :=
  Machine {[ cpu_cfs_quota_us := kernel_file "200000"; cpu_cfs_period_us := unreadable ]}
          [] [] (chars "200000" ++ [LF]).

(** No cgroup file at all. *)
Definition no_cgroup : machine := Machine ∅ [] [] [].

Definition unlimited_v2 : machine :=
  Machine {[ cpu_max := kernel_file "max 100000" ]} [] [] [].

(** A file that delivers [n] bytes. *)
Definition long_file (n : nat) : file := File (ReadBytes (replicate n "1"%char)) true.

(** Four processors, all online. *)
Definition four_cores : os_state := OS 4 4 1 4 4 30.
(** [std::thread::hardware_concurrency()] may return 0 when the number is
    not computable. *)
Definition count_unknown : os_state := OS 4 4 1 4 0 30.
(** No processor reported online. *)
Definition none_online : os_state := OS 4 0 1 4 4 30.
(** Two of the four processors taken offline. *)
Definition two_online : os_state := OS 4 2 1 4 4 30.

(** ** What the kernel writes *)

(** The decimal digits of [z], with a minus sign when it is negative. *)
Definition decimal (z : Z) : list ascii :=
  chars (DecimalString.NilEmpty.string_of_int (Z.to_int z)).

(** The contents of cpu.max under a quota: quota, space, period, line
    feed. *)
Definition cpu_max_text (quota period : Z) : list ascii :=
  decimal quota ++ " "%char :: decimal period ++ [LF].

(** The contents of a legacy file: one number and a line feed. *)
Definition legacy_text (n : Z) : list ascii := decimal n ++ [LF].

(** A file that delivers [data] and closes. *)
Definition served (data : list ascii) : file := File (ReadBytes data) true.

(** The number a run of decimal digits stands for, most significant
    digit first, continuing [acc]. *)
Fixpoint uint_value (acc : Z) (d : Decimal.uint) : Z :=
  match d with
  | Decimal.Nil => acc
  | Decimal.D0 d => uint_value (acc * 10 + 0) d
  | Decimal.D1 d => uint_value (acc * 10 + 1) d
  | Decimal.D2 d => uint_value (acc * 10 + 2) d
  | Decimal.D3 d => uint_value (acc * 10 + 3) d
  | Decimal.D4 d => uint_value (acc * 10 + 4) d
  | Decimal.D5 d => uint_value (acc * 10 + 5) d
  | Decimal.D6 d => uint_value (acc * 10 + 6) d
  | Decimal.D7 d => uint_value (acc * 10 + 7) d
  | Decimal.D8 d => uint_value (acc * 10 + 8) d
  | Decimal.D9 d => uint_value (acc * 10 + 9) d
  end.

(** Every character of [ws] is white space. *)
Definition all_space (ws : list ascii) : Prop := Forall (fun c => isspace c = true) ws.

(** [rest] does not go on with a digit. *)
Definition stops (rest : list ascii) : Prop :=
  match rest with
  | c :: _ => isdigit c = false
  | [] => True
  end.

(** The file [fd] fills an array of [count] bytes. *)
Definition fills (fd : file) (count : nat) : Prop :=
  exists data, file_read fd = ReadBytes data /\ (count <= length data)%nat.

(** ** The weak definitions for Android (lines 45-49 of the source) *)

(** What [::sysconf] answers, a [long]. *)
Record sysconf_state : Type := Sysconf {
  SC_NPROCESSORS_ONLN : Z;
  SC_NPROCESSORS_CONF : Z;
}.

Definition weak_get_nprocs (sc : sysconf_state) : Z := to_int (SC_NPROCESSORS_ONLN sc).
Definition weak_get_nprocs_conf (sc : sysconf_state) : Z := to_int (SC_NPROCESSORS_CONF sc).

(** The operating system as the queries see it when the weak definitions
    are the ones linked. *)
Definition with_weak_nprocs (sc : sysconf_state) (os : os_state) : os_state :=
  OS (weak_get_nprocs_conf sc) (weak_get_nprocs sc)
     (emscripten_has_threading_support os) (emscripten_num_logical_cores os)
     (std_hardware_concurrency os) (android_get_device_api_level os).

(** * Properties *)

(** ** The model on a few inputs *)

Example strtol_pair :
  strtol (chars "150000 100000" ++ [LF]) = (150000, chars " 100000" ++ [LF]).
Proof. reflexivity. Qed.

Example strtol_max :
  strtol (chars "max 100000" ++ [LF]) = (0, chars "max 100000" ++ [LF]).
Proof. reflexivity. Qed.

Example atoi_negative : atoi (chars "-1" ++ [LF]) = -1.
Proof. reflexivity. Qed.

Example cgroup_v2_one_and_a_half :
  get_docker_limit debug_docker
    (Machine {[ cpu_max := kernel_file "150000 100000" ]} [] [] []) = Ret 2.
Proof. vm_compute. reflexivity. Qed.

Example cgroup_v2_max :
  get_docker_limit debug_docker
    (Machine {[ cpu_max := kernel_file "max 100000" ]} [] [] []) = Ret (-1).
Proof. vm_compute. reflexivity. Qed.

Example cgroup_v1_half :
  get_docker_limit debug_docker
    (Machine {[ cpu_cfs_quota_us := kernel_file "50000";
                cpu_cfs_period_us := kernel_file "100000" ]} [] [] []) = Ret 1.
Proof. vm_compute. reflexivity. Qed.


(** ** Conversions *)

Lemma to_int_id z : in_int z -> to_int z = z.
Proof.
  unfold in_int, INT_MIN, INT_MAX, to_int. intros H.
  rewrite Z.mod_small by lia. lia.
Qed.

Lemma to_int_range z : in_int (to_int z).
Proof.
  unfold in_int, INT_MIN, INT_MAX, to_int.
  pose proof (Z.mod_pos_bound (z + 2147483648) 4294967296 ltac:(lia)). lia.
Qed.

Lemma hc_modulus_ge_2 b : 2 <= hc_modulus b.
Proof.
  unfold hc_modulus.
  change 2 with (2 ^ 1) at 1. apply Z.pow_le_mono_r; lia.
Qed.

Lemma hc_max_pos b : 1 <= hc_max b.
Proof. unfold hc_max. pose proof (hc_modulus_ge_2 b). lia. Qed.

Lemma to_hc_range b z : 0 <= to_hc b z <= hc_max b.
Proof.
  unfold to_hc, hc_max. pose proof (hc_modulus_ge_2 b).
  pose proof (Z.mod_pos_bound z (hc_modulus b) ltac:(lia)). lia.
Qed.

Lemma to_hc_id b z : 0 <= z <= hc_max b -> to_hc b z = z.
Proof. unfold to_hc, hc_max. intros H. apply Z.mod_small. lia. Qed.

Lemma to_hc_0 b : to_hc b 0 = 0.
Proof. apply to_hc_id. pose proof (hc_max_pos b). lia. Qed.

(** ** The rounding of [get_docker_limit] *)

Lemma docker_limit_absent cfs_quota cfs_period :
  cfs_quota <= 0 \/ cfs_period <= 0 -> docker_limit cfs_quota cfs_period = -1.
Proof.
  intros H. unfold docker_limit.
  destruct (Z.gtb_spec cfs_quota 0), (Z.gtb_spec cfs_period 0); simpl; lia.
Qed.

(** Where the sum [cfs_quota + cfs_period / 2] stays an [int], the code
    rounds half up as the specification says. *)
Lemma docker_limit_round_half_up cfs_quota cfs_period :
  0 < cfs_quota -> 0 < cfs_period ->
  cfs_quota + cfs_period / 2 <= INT_MAX ->
  docker_limit cfs_quota cfs_period = round_half_up_cores cfs_quota cfs_period.
Proof.
  intros Hq Hp Hsum. unfold docker_limit, round_half_up_cores.
  destruct (Z.gtb_spec cfs_quota 0); [| lia].
  destruct (Z.gtb_spec cfs_period 0); [| lia]. simpl.
  assert (Hhalf : 0 <= cfs_period / 2 <= cfs_period).
  { split; [apply Z.div_pos; lia |].
    apply Z.div_le_upper_bound; lia. }
  unfold INT_MAX in Hsum.
  unfold int_div at 2. rewrite Z.quot_div_nonneg by lia.
  rewrite (to_int_id (cfs_period / 2)) by (unfold in_int, INT_MIN, INT_MAX; lia).
  unfold int_add.
  rewrite (to_int_id (cfs_quota + cfs_period / 2))
    by (unfold in_int, INT_MIN, INT_MAX; lia).
  unfold int_div. rewrite Z.quot_div_nonneg by lia.
  assert (Hdiv : 0 <= (cfs_quota + cfs_period / 2) / cfs_period <= cfs_quota + cfs_period / 2).
  { split; [apply Z.div_pos; lia |].
    apply Z.div_le_upper_bound; nia. }
  rewrite !(to_int_id ((cfs_quota + cfs_period / 2) / cfs_period))
    by (unfold in_int, INT_MIN, INT_MAX; lia).
  lia.
Qed.

(** Where line 119 is defined the limit is the sentinel or a positive
    [int]. *)
Lemma docker_limit_cases cfs_quota cfs_period :
  sum_in_int cfs_quota cfs_period ->
  docker_limit cfs_quota cfs_period = -1 \/
  1 <= docker_limit cfs_quota cfs_period <= INT_MAX.
Proof.
  intros Hsum.
  destruct (Z.lt_ge_cases 0 cfs_quota) as [Hq |];
    [| left; apply docker_limit_absent; lia].
  destruct (Z.lt_ge_cases 0 cfs_period) as [Hp |];
    [| left; apply docker_limit_absent; lia].
  right. specialize (Hsum Hq Hp).
  rewrite (docker_limit_round_half_up _ _ Hq Hp Hsum). unfold round_half_up_cores.
  assert (Hhalf : 0 <= cfs_period / 2) by (apply Z.div_pos; lia).
  assert ((cfs_quota + cfs_period / 2) / cfs_period <= cfs_quota + cfs_period / 2)
    by (apply Z.div_le_upper_bound; nia).
  unfold INT_MAX in *. lia.
Qed.

Example docker_limit_one_and_a_half : docker_limit 150000 100000 = 2.
Proof. reflexivity. Qed.

Example docker_limit_half : docker_limit 50000 100000 = 1.
Proof. reflexivity. Qed.

Example docker_limit_third : docker_limit 33000 100000 = 1.
Proof. reflexivity. Qed.

(** C1.  The claim is that [get_docker_limit] returns
    [max(1, (quota + period/2) / period)] for every positive quota and
    period.  With the quota 2147483647 and the period 100000 in cpu.max
    the sum [cfs_quota + cfs_period / 2] is 2147533647, which is not an
    [int]; the reduced sum is negative, so is the quotient, and the
    function returns 1 where the rule gives 21475.  A quota that is not
    an [int] itself, 4294967297, is cut to 1 by the conversion of the
    [long], and the function returns 1 where the rule gives 42950. *)
Theorem get_docker_limit_sum_leaves_int :
  (~ in_int (2147483647 + 100000 / 2) /\
   int_add 2147483647 (int_div 100000 2) = -2147433649 /\
   docker_limit 2147483647 100000 = 1 /\
   round_half_up_cores 2147483647 100000 = 21475 /\
   get_docker_limit debug_docker
     (Machine {[ cpu_max := kernel_file "2147483647 100000" ]} [] [] []) = Ret 1) /\
  (parse_pair (chars "4294967297 100000" ++ [LF]) = (1, 100000) /\
   round_half_up_cores 4294967297 100000 = 42950 /\
   get_docker_limit debug_docker
     (Machine {[ cpu_max := kernel_file "4294967297 100000" ]} [] [] []) = Ret 1).
Proof.
  split.
  - split; [intros [_ H]; vm_compute in H; now apply H |].
    repeat split; vm_compute; reflexivity.
  - repeat split; vm_compute; reflexivity.
Qed.

(** ** The public queries *)

Lemma get_hardware_concurrency_max_range b dq os :
  0 <= get_hardware_concurrency_max b dq os <= hc_max b.
Proof. apply to_hc_range. Qed.

Lemma hardware_concurrency_current_range b dq os :
  0 <= hardware_concurrency_current b dq os <= hc_max b.
Proof. apply to_hc_range. Qed.

Lemma docker_operands b dq os :
  impl b = DockerLimits ->
  max_operand b dq os =
    (if bool_decide (value dq ≠ -1) then value dq else get_nprocs_conf os) /\
  current_operand b dq os =
    (if bool_decide (value dq ≠ -1) then value dq else get_nprocs os).
Proof. intros Hb. unfold max_operand, current_operand. now rewrite Hb. Qed.

Lemma docker_queries_present b dq os :
  impl b = DockerLimits -> value dq ≠ -1 ->
  get_hardware_concurrency_max b dq os = to_hc b (value dq) /\
  hardware_concurrency_current b dq os = to_hc b (value dq).
Proof.
  intros Hb Hq. destruct (docker_operands b dq os Hb) as [Hmax Hcur].
  unfold get_hardware_concurrency_max, hardware_concurrency_current.
  rewrite Hmax, Hcur, bool_decide_eq_true_2 by exact Hq. now split.
Qed.

Lemma docker_queries_absent b dq os :
  impl b = DockerLimits -> value dq = -1 ->
  get_hardware_concurrency_max b dq os = to_hc b (get_nprocs_conf os) /\
  hardware_concurrency_current b dq os = to_hc b (get_nprocs os).
Proof.
  intros Hb Hq. destruct (docker_operands b dq os Hb) as [Hmax Hcur].
  unfold get_hardware_concurrency_max, hardware_concurrency_current.
  rewrite Hmax, Hcur, bool_decide_eq_false_2 by (intros Hne; now apply Hne).
  now split.
Qed.

Lemma get_docker_limit_cfs_pair b m :
  get_docker_limit b m =
    ('(cfs_quota, cfs_period) ← cfs_pair b m; Ret (docker_limit cfs_quota cfs_period)).
Proof. reflexivity. Qed.

(** Whatever the files hold, a [docker_quota] constructed where line 119
    is defined is the sentinel or a positive [int]. *)
Lemma docker_quota_t_ctor_cases b m dq :
  line_119_defined b m ->
  docker_quota_t_ctor b m = Ret dq -> value dq = -1 \/ 1 <= value dq <= INT_MAX.
Proof.
  unfold docker_quota_t_ctor, line_119_defined. rewrite get_docker_limit_cfs_pair.
  destruct (cfs_pair b m) as [[q p] | f]; cbn; [| discriminate].
  intros Hsum [= <-]. cbn. now apply docker_limit_cases.
Qed.

(** C2, counterexample.  In the standard build for a target that is
    neither Emscripten nor Linux, a [std::thread::hardware_concurrency()]
    of 0 is returned as it is by [get_hardware_concurrency_max]; so is a
    [get_nprocs_conf()] of 0 in the build with docker limits when there
    is no quota. *)
Lemma unknown_count_is_returned :
  get_hardware_concurrency_max debug_standard no_quota count_unknown = 0 /\
  ~ (1 <= get_hardware_concurrency_max debug_standard no_quota count_unknown) /\
  get_hardware_concurrency_max release_docker no_quota (OS 0 0 1 4 4 30) = 0.
Proof.
  split; [reflexivity |]. split; [| reflexivity].
  intros H. vm_compute in H. now apply H.
Qed.

Lemma queries_return_operands b dq os :
  0 <= max_operand b dq os <= hc_max b ->
  0 <= current_operand b dq os <= hc_max b ->
  get_hardware_concurrency_max b dq os = max_operand b dq os /\
  hardware_concurrency_current b dq os = current_operand b dq os.
Proof.
  intros Hmax Hcur.
  unfold get_hardware_concurrency_max, hardware_concurrency_current.
  now rewrite !to_hc_id.
Qed.

(** C2, amended.  For every state of the cgroup files (missing,
    malformed, empty) from which the constructor of [docker_quota]
    returns, line 119 being defined, the quota is -1 or at least 1.
    Neither query clamps a count of the operating system: when the
    quota, if there is one, fits [hardware_concurrency_t] and every
    count the build asks for lies between 1 and the largest
    [hardware_concurrency_t], each query returns the value it selects
    unchanged, and so at least 1.  The value selected is 1 in the
    single-threaded build; with docker limits the quota when there is
    one, otherwise [get_nprocs_conf()] for the maximum and
    [get_nprocs()] for the current value; the same two counts in the
    standard Linux build; under Emscripten the number of logical cores,
    or 1 without threading support; elsewhere
    [std::thread::hardware_concurrency()]. *)
Theorem hardware_concurrency_at_least_one b m dq os :
  docker_quota_t_ctor b m = Ret dq ->
  line_119_defined b m ->
  values_usable b dq os ->
  (value dq = -1 \/ 1 <= value dq) /\
  (impl b = SingleThreaded ->
     get_hardware_concurrency_max b dq os = 1 /\
     hardware_concurrency_current b dq os = 1) /\
  (impl b = DockerLimits -> value dq ≠ -1 ->
     get_hardware_concurrency_max b dq os = value dq /\
     hardware_concurrency_current b dq os = value dq) /\
  (impl b = DockerLimits -> value dq = -1 ->
     get_hardware_concurrency_max b dq os = get_nprocs_conf os /\
     hardware_concurrency_current b dq os = get_nprocs os) /\
  (impl b = Standard Linux ->
     get_hardware_concurrency_max b dq os = get_nprocs_conf os /\
     hardware_concurrency_current b dq os = get_nprocs os) /\
  (impl b = Standard EmscriptenPthreads ->
   emscripten_has_threading_support os ≠ 0 ->
     get_hardware_concurrency_max b dq os = emscripten_num_logical_cores os /\
     hardware_concurrency_current b dq os = emscripten_num_logical_cores os) /\
  (impl b = Standard EmscriptenPthreads ->
   emscripten_has_threading_support os = 0 ->
     get_hardware_concurrency_max b dq os = 1 /\
     hardware_concurrency_current b dq os = 1) /\
  (impl b = Standard OtherTarget ->
     get_hardware_concurrency_max b dq os = std_hardware_concurrency os /\
     hardware_concurrency_current b dq os = std_hardware_concurrency os) /\
  1 <= get_hardware_concurrency_max b dq os /\
  1 <= hardware_concurrency_current b dq os.
Proof.
  intros Hctor Hdefined Husable.
  pose proof (docker_quota_t_ctor_cases b m dq Hdefined Hctor) as Hquota.
  pose proof (hc_max_pos b) as Hone.
  assert (Hmax : 1 <= max_operand b dq os <= hc_max b /\
                 1 <= current_operand b dq os <= hc_max b).
  { unfold values_usable, usable_count in Husable.
    unfold current_operand, get_hardware_concurrency_max, max_operand.
    destruct (impl b) as [| | []].
    - lia.
    - destruct (bool_decide (value dq ≠ -1)) eqn:Hpresent; [| lia].
      apply bool_decide_eq_true_1 in Hpresent. lia.
    - destruct (bool_decide (emscripten_has_threading_support os ≠ 0)) eqn:Hthreads.
      + apply bool_decide_eq_true_1 in Hthreads. specialize (Husable Hthreads).
        rewrite to_hc_id by lia. lia.
      + rewrite to_hc_id by lia. lia.
    - lia.
    - lia. }
  destruct Hmax as [Hmax Hcur].
  destruct (queries_return_operands b dq os) as [Emax Ecur]; [lia | lia |].
  rewrite Emax, Ecur. clear Emax Ecur.
  split; [lia |].
  unfold values_usable, usable_count in Husable.
  unfold current_operand, get_hardware_concurrency_max, max_operand in *.
  destruct (impl b) as [| | []]; repeat split; try discriminate; try lia;
    try (rewrite bool_decide_eq_true_2 by assumption);
    try (rewrite bool_decide_eq_false_2 by (intros Hne; now apply Hne));
    try reflexivity.
  - apply to_hc_id.
    assert (1 <= emscripten_num_logical_cores os <= hc_max b)
      by (apply Husable; assumption).
    lia.
  - apply to_hc_id. lia.
Qed.

Lemma hardware_concurrency_at_least_one_witness :
  get_hardware_concurrency_max release_docker (DockerQuota 3) two_online = 3 /\
  1 <= hardware_concurrency_current release_docker (DockerQuota 3) two_online.
Proof.
  destruct (hardware_concurrency_at_least_one release_docker two_and_a_half
              (DockerQuota 3) two_online)
    as (_ & _ & Hpresent & _ & _ & _ & _ & _ & _ & Hcur).
  - reflexivity.
  - vm_compute. intros _ _ H. discriminate H.
  - vm_compute. discriminate.
  - destruct Hpresent as [Hmax _]; [reflexivity | discriminate |].
    split; [exact Hmax | exact Hcur].
Defined.

(** C3.  In the build with docker limits: with a quota (a value other
    than -1) both queries return the quota, without one
    [get_hardware_concurrency_max] returns [get_nprocs_conf()] and
    [hardware_concurrency_current] returns [get_nprocs()]; "return" is
    through the cast to [hardware_concurrency_t], which leaves every
    value of that type as it is. *)
Theorem docker_quota_overrides b dq os :
  impl b = DockerLimits ->
  (value dq ≠ -1 ->
     get_hardware_concurrency_max b dq os = to_hc b (value dq) /\
     hardware_concurrency_current b dq os = to_hc b (value dq) /\
     (0 <= value dq <= hc_max b ->
        get_hardware_concurrency_max b dq os = value dq /\
        hardware_concurrency_current b dq os = value dq)) /\
  (value dq = -1 ->
     get_hardware_concurrency_max b dq os = to_hc b (get_nprocs_conf os) /\
     hardware_concurrency_current b dq os = to_hc b (get_nprocs os) /\
     (0 <= get_nprocs_conf os <= hc_max b ->
        get_hardware_concurrency_max b dq os = get_nprocs_conf os) /\
     (0 <= get_nprocs os <= hc_max b ->
        hardware_concurrency_current b dq os = get_nprocs os)).
Proof.
  intros Hb. split; intros Hq.
  - destruct (docker_queries_present b dq os Hb Hq) as [-> ->].
    repeat split; try reflexivity; now apply to_hc_id.
  - destruct (docker_queries_absent b dq os Hb Hq) as [-> ->].
    repeat split; try reflexivity; intros; now apply to_hc_id.
Qed.

Lemma docker_quota_overrides_witness :
  get_hardware_concurrency_max release_docker (DockerQuota 2) four_cores = 2 /\
  hardware_concurrency_current release_docker (DockerQuota 2) four_cores = 2 /\
  get_hardware_concurrency_max release_docker no_quota two_online = 4 /\
  hardware_concurrency_current release_docker no_quota two_online = 2.
Proof.
  destruct (docker_quota_overrides release_docker (DockerQuota 2) four_cores eq_refl)
    as [Hpresent _].
  destruct (docker_quota_overrides release_docker no_quota two_online eq_refl)
    as [_ Habsent].
  destruct Hpresent as (_ & _ & Hfit); [discriminate |].
  destruct Hfit as [Hmax Hcur]; [vm_compute; split; discriminate |].
  destruct Habsent as (_ & _ & Hconf & Honl); [reflexivity |].
  split; [exact Hmax |]. split; [exact Hcur |]. split.
  - apply Hconf. vm_compute. split; discriminate.
  - apply Honl. vm_compute. split; discriminate.
Defined.

(** C10.  In the build with docker limits and with a quota, a call of
    [hardware_concurrency_current] returns what a call of
    [get_hardware_concurrency_max] returns, whatever the operating
    system reports at either call; so current <= max. *)
Theorem quota_present_current_is_max b dq os os' :
  impl b = DockerLimits ->
  value dq ≠ -1 ->
  hardware_concurrency_current b dq os = get_hardware_concurrency_max b dq os' /\
  hardware_concurrency_current b dq os <= get_hardware_concurrency_max b dq os'.
Proof.
  intros Hb Hq.
  destruct (docker_queries_present b dq os Hb Hq) as [_ ->].
  destruct (docker_queries_present b dq os' Hb Hq) as [-> _]. lia.
Qed.

Lemma quota_present_current_is_max_witness :
  hardware_concurrency_current release_docker (DockerQuota 2) two_online =
  get_hardware_concurrency_max release_docker (DockerQuota 2) four_cores.
Proof.
  apply (quota_present_current_is_max release_docker (DockerQuota 2)
           two_online four_cores eq_refl).
  discriminate.
Defined.

(** ** Repeated calls *)

Lemma max_operand_stable b dq os1 os2 :
  configured_agree os1 os2 -> max_operand b dq os1 = max_operand b dq os2.
Proof.
  intros (Hconf & Hthr & Hcores & Hstd). unfold max_operand.
  destruct (impl b) as [| | []]; now rewrite ?Hconf, ?Hthr, ?Hcores, ?Hstd.
Qed.

(** C8, counterexample.  [hardware_concurrency_current] returns the
    count it reads as it is: a [std::thread::hardware_concurrency()] of
    0 in the standard build, and in the build with docker limits and
    without a quota a [get_nprocs()] of 0. *)
Lemma current_returns_zero :
  hardware_concurrency_current debug_standard no_quota count_unknown = 0 /\
  ~ (1 <= hardware_concurrency_current debug_standard no_quota count_unknown) /\
  hardware_concurrency_current release_docker no_quota none_online = 0 /\
  ~ (1 <= hardware_concurrency_current release_docker no_quota none_online).
Proof.
  split; [reflexivity |]. split; [| split; [reflexivity |]];
    intros H; vm_compute in H; now apply H.
Qed.

(** C8, amended.  [docker_quota] is constant, so two calls of
    [get_hardware_concurrency_max] return the same value whenever the
    operating system gives the same configured counts at both, however
    the online count moves in between, and with a quota they return the
    same value whatever it gives.  Two calls of
    [hardware_concurrency_current] can differ (four, then two processors
    online); each returns at least 1 where the value it selects lies
    between 1 and the largest [hardware_concurrency_t]. *)
Theorem max_is_stable b dq os1 os2 :
  configured_agree os1 os2 ->
  get_hardware_concurrency_max b dq os1 = get_hardware_concurrency_max b dq os2 /\
  (forall os os', impl b = DockerLimits -> value dq ≠ -1 ->
     get_hardware_concurrency_max b dq os = get_hardware_concurrency_max b dq os') /\
  (configured_agree four_cores two_online /\
   hardware_concurrency_current release_docker no_quota four_cores ≠
   hardware_concurrency_current release_docker no_quota two_online) /\
  (forall os, 1 <= current_operand b dq os <= hc_max b ->
     1 <= hardware_concurrency_current b dq os).
Proof.
  intros Hagree. split; [| split; [| split]].
  - unfold get_hardware_concurrency_max. f_equal. now apply max_operand_stable.
  - intros os os' Hb Hq.
    destruct (docker_queries_present b dq os Hb Hq) as [-> _].
    now destruct (docker_queries_present b dq os' Hb Hq) as [-> _].
  - split; [now repeat split | discriminate].
  - intros os Hcur. unfold hardware_concurrency_current.
    rewrite to_hc_id by lia. lia.
Qed.

Lemma max_is_stable_witness :
  get_hardware_concurrency_max release_docker no_quota four_cores =
  get_hardware_concurrency_max release_docker no_quota two_online.
Proof.
  apply (max_is_stable release_docker no_quota four_cores two_online).
  unfold configured_agree. simpl. repeat split.
Defined.

(** ** The capability flag *)

(** C7.  [slow_thread_signals] is true exactly on Android with an API
    level below 24; it is false from level 24 on and on every other
    platform. *)
Theorem slow_thread_signals_android_below_24 b os :
  (slow_thread_signals b os = true <->
     android b = true /\ android_get_device_api_level os < 24) /\
  (slow_thread_signals b os = false <->
     android b = false \/ 24 <= android_get_device_api_level os).
Proof.
  unfold slow_thread_signals, slow_thread_signals_t_ctor.
  destruct (android b); destruct (Z.ltb_spec (android_get_device_api_level os) 24);
    split; split; intros; try discriminate; try reflexivity;
    intuition (try discriminate; try lia).
Qed.

Example slow_thread_signals_android_23 :
  slow_thread_signals debug_android (OS 8 8 0 0 8 23) = true.
Proof. reflexivity. Qed.

Example slow_thread_signals_android_24 :
  slow_thread_signals debug_android (OS 8 8 0 0 8 24) = false.
Proof. reflexivity. Qed.

Example slow_thread_signals_elsewhere :
  slow_thread_signals release_docker (OS 8 8 0 0 8 23) = false.
Proof. reflexivity. Qed.

(** ** Reading *)

Lemma read_short fd data buf count :
  file_read fd = ReadBytes data -> (length data < count)%nat ->
  read fd buf count = (Z.of_nat (length data), data ++ drop (length data) buf).
Proof.
  intros Hread Hlen. unfold read. rewrite Hread.
  rewrite Nat.min_l by lia. now rewrite firstn_all.
Qed.

Lemma read_fills fd data buf count :
  file_read fd = ReadBytes data -> (count <= length data)%nat ->
  fst (read fd buf count) = Z.of_nat count.
Proof.
  intros Hread Hlen. unfold read. rewrite Hread. simpl.
  now rewrite Nat.min_r by lia.
Qed.

Lemma read_error fd buf count :
  file_read fd = ReadError -> read fd buf count = (-1, buf).
Proof. intros Hread. unfold read. now rewrite Hread. Qed.

Lemma BOOST_VERIFY_true b f : BOOST_VERIFY b f true = Ret tt.
Proof. unfold BOOST_VERIFY. now rewrite andb_false_r. Qed.

Lemma BOOST_VERIFY_close b fd :
  close_verified b fd -> BOOST_VERIFY b CloseFailed (file_close fd) = Ret tt.
Proof.
  unfold BOOST_VERIFY. intros [-> | ->]; [reflexivity |]. now rewrite andb_false_r.
Qed.

Lemma BOOST_VERIFY_false b f :
  verify_checks b = true -> BOOST_VERIFY b f false = Abort f.
Proof. unfold BOOST_VERIFY. now intros ->. Qed.

(** ** Parsing *)

Lemma skip_space_app data c rest tail :
  skip_space data = c :: rest -> skip_space (data ++ tail) = c :: rest ++ tail.
Proof.
  induction data as [| d data IH]; simpl; [discriminate |].
  destruct (isspace d); [exact IH |]. now intros [= -> ->].
Qed.

Lemma strtol_textual data tail :
  starts_textual data = true -> strtol (data ++ tail) = (0, data ++ tail).
Proof.
  unfold starts_textual, strtol. intros H.
  destruct (skip_space data) as [| c rest] eqn:Hskip; [discriminate |].
  rewrite (skip_space_app _ _ _ tail Hskip).
  apply andb_true_iff in H as [Hdigit Hsign].
  apply negb_true_iff in Hdigit, Hsign.
  rewrite Hsign. simpl. now rewrite Hdigit.
Qed.

Lemma parse_pair_textual data tail :
  starts_textual data = true -> parse_pair (data ++ tail) = (0, 0).
Proof.
  intros H. unfold parse_pair. now rewrite !(strtol_textual _ _ H).
Qed.

Lemma strtol_NUL s : strtol (NUL :: s) = (0, NUL :: s).
Proof. reflexivity. Qed.

Lemma skip_space_take data c rest n :
  skip_space data = c :: rest ->
  skip_space (take n data) = [] \/ exists rest', skip_space (take n data) = c :: rest'.
Proof.
  revert n. induction data as [| d data IH]; intros n; simpl; [discriminate |].
  destruct n as [| n]; simpl; [now left |].
  destruct (isspace d); [apply IH |].
  intros [= -> ->]. right. now eexists.
Qed.

Lemma strtol_textual_take data n :
  starts_textual data = true -> strtol (take n data) = (0, take n data).
Proof.
  unfold starts_textual, strtol. intros H.
  destruct (skip_space data) as [| c rest] eqn:Hskip; [discriminate |].
  apply andb_true_iff in H as [Hdigit Hsign].
  apply negb_true_iff in Hdigit, Hsign.
  destruct (skip_space_take _ _ _ n Hskip) as [-> | [rest' ->]]; [reflexivity |].
  rewrite Hsign. now rewrite Hdigit.
Qed.

Lemma value_pair_init_length m : length (value_pair_init m) = 128%nat.
Proof. unfold value_pair_init, char_array. now rewrite length_insert, length_resize. Qed.

(** A failed or empty read leaves the terminator that was put in front. *)
Lemma value_pair_init_head m : exists tail, value_pair_init m = NUL :: tail.
Proof.
  unfold value_pair_init, char_array.
  destruct (resize 128 NUL (value_pair_mem m)) as [| c tail] eqn:H.
  - apply (f_equal length) in H. rewrite length_resize in H. discriminate.
  - now exists tail.
Qed.

(** The array after the read, whatever its length, parses to (0, 0) when
    the file starts with text. *)
Lemma parse_pair_read_textual m fd data :
  file_read fd = ReadBytes data -> starts_textual data = true ->
  parse_pair (snd (read fd (value_pair_init m) 128)) = (0, 0).
Proof.
  intros Hread Htext. unfold read. rewrite Hread. simpl.
  destruct (Nat.lt_ge_cases (length data) 128) as [Hlt | Hge].
  - rewrite Nat.min_l by lia. rewrite firstn_all.
    now apply parse_pair_textual.
  - rewrite Nat.min_r by lia.
    rewrite drop_ge by (rewrite value_pair_init_length; lia).
    rewrite app_nil_r. unfold parse_pair.
    now rewrite !(strtol_textual_take _ _ Htext).
Qed.

(** ** The quota reader, path by path *)

Lemma get_docker_limit_unified b m fd :
  fs m !! cpu_max = Some fd ->
  get_docker_limit b m =
    (BOOST_VERIFY b ReadFilledBuffer (fst (read fd (value_pair_init m) 128) <? 128) ;;
     BOOST_VERIFY b CloseFailed (file_close fd) ;;
     Ret (docker_limit (fst (parse_pair (snd (read fd (value_pair_init m) 128))))
                       (snd (parse_pair (snd (read fd (value_pair_init m) 128)))))).
Proof.
  intros Hfs. unfold get_docker_limit. rewrite Hfs.
  destruct (read fd (value_pair_init m) 128) as [n value_pair]. simpl.
  destruct (BOOST_VERIFY b ReadFilledBuffer (n <? 128)); simpl; [| reflexivity].
  destruct (BOOST_VERIFY b CloseFailed (file_close fd)); simpl; [| reflexivity].
  now destruct (parse_pair value_pair).
Qed.

Lemma get_docker_limit_legacy b m :
  fs m !! cpu_max = None ->
  get_docker_limit b m =
    (cfs_quota ← read_int b (fs m) (quota_value_mem m) cpu_cfs_quota_us;
     cfs_period ← read_int b (fs m) (period_value_mem m) cpu_cfs_period_us;
     Ret (docker_limit cfs_quota cfs_period)).
Proof.
  intros Hfs. unfold get_docker_limit. rewrite Hfs.
  destruct (read_int b (fs m) (quota_value_mem m) cpu_cfs_quota_us); simpl;
    [| reflexivity].
  now destruct (read_int b (fs m) (period_value_mem m) cpu_cfs_period_us).
Qed.

Lemma read_int_open_fails b (fs : gmap string file) mem file_path :
  fs !! file_path = None -> read_int b fs mem file_path = Ret (-1).
Proof. intros Hfs. unfold read_int. now rewrite Hfs. Qed.

Lemma checks_pass_read b fd data buf count f :
  file_read fd = ReadBytes data -> checks_pass b fd data count ->
  BOOST_VERIFY b f (fst (read fd buf count) <? Z.of_nat count) = Ret tt.
Proof.
  intros Hread [Hoff | [Hlen _]]; unfold BOOST_VERIFY.
  - now rewrite Hoff.
  - rewrite (read_short _ _ _ _ Hread Hlen). simpl.
    destruct (Z.ltb_spec (Z.of_nat (length data)) (Z.of_nat count)); [| lia].
    now rewrite andb_false_r.
Qed.

Lemma checks_pass_close b fd data count :
  checks_pass b fd data count -> close_verified b fd.
Proof. intros [H | [_ H]]; [now left | now right]. Qed.

(** A pair read from cpu.max whose sum stays an [int] is rounded half up. *)
Lemma get_docker_limit_unified_rounds b m fd data :
  fs m !! cpu_max = Some fd ->
  file_read fd = ReadBytes data ->
  checks_pass b fd data 128 ->
  0 < fst (parse_pair (snd (read fd (value_pair_init m) 128))) ->
  0 < snd (parse_pair (snd (read fd (value_pair_init m) 128))) ->
  fst (parse_pair (snd (read fd (value_pair_init m) 128))) +
    snd (parse_pair (snd (read fd (value_pair_init m) 128))) / 2 <= INT_MAX ->
  get_docker_limit b m =
    Ret (round_half_up_cores
           (fst (parse_pair (snd (read fd (value_pair_init m) 128))))
           (snd (parse_pair (snd (read fd (value_pair_init m) 128))))).
Proof.
  intros Hfs Hread Hchecks Hq Hp Hsum.
  rewrite (get_docker_limit_unified _ _ _ Hfs).
  change 128 with (Z.of_nat 128) at 1.
  rewrite (checks_pass_read _ _ _ _ _ _ Hread Hchecks).
  rewrite (BOOST_VERIFY_close _ _ (checks_pass_close _ _ _ _ Hchecks)). simpl.
  f_equal. now apply docker_limit_round_half_up.
Qed.

(** A build without checks always gets a value from the reader. *)
Lemma read_int_release b (fs : gmap string file) mem file_path :
  verify_checks b = false -> exists v, read_int b fs mem file_path = Ret v.
Proof.
  intros Hoff. unfold read_int, BOOST_VERIFY. rewrite Hoff.
  destruct (fs !! file_path) as [fd |]; [| now eexists].
  destruct (read fd (char_array 64 mem) 64). simpl. now eexists.
Qed.

Lemma get_docker_limit_release b m :
  verify_checks b = false -> exists limit, get_docker_limit b m = Ret limit.
Proof.
  intros Hoff.
  destruct (fs m !! cpu_max) as [fd |] eqn:Hfs.
  - rewrite (get_docker_limit_unified _ _ _ Hfs).
    unfold BOOST_VERIFY. rewrite Hoff. simpl. now eexists.
  - rewrite (get_docker_limit_legacy _ _ Hfs).
    destruct (read_int_release b (fs m) (quota_value_mem m) cpu_cfs_quota_us Hoff)
      as [q ->].
    destruct (read_int_release b (fs m) (period_value_mem m) cpu_cfs_period_us Hoff)
      as [p ->].
    simpl. now eexists.
Qed.

(** ** No quota *)

(** C4.  When cpu.max starts with a textual marker, or the pair parsed
    from it has a quota or a period that is zero or negative, the quota
    reader returns -1, and the public queries of the build with docker
    limits return the processor counts of the operating system, which are
    never the sentinel.  The reads are those that pass the checks of
    [BOOST_VERIFY]: any read where the build has no checks, otherwise one
    that leaves room in the array and whose file closes. *)
Theorem unlimited_quota_is_absent b m fd data os :
  impl b = DockerLimits ->
  fs m !! cpu_max = Some fd ->
  file_read fd = ReadBytes data ->
  checks_pass b fd data 128 ->
  starts_textual data = true \/
  fst (parse_pair (snd (read fd (value_pair_init m) 128))) <= 0 \/
  snd (parse_pair (snd (read fd (value_pair_init m) 128))) <= 0 ->
  get_docker_limit b m = Ret (-1) /\
  docker_quota_t_ctor b m = Ret no_quota /\
  get_hardware_concurrency_max b no_quota os = to_hc b (get_nprocs_conf os) /\
  hardware_concurrency_current b no_quota os = to_hc b (get_nprocs os) /\
  get_hardware_concurrency_max b no_quota os ≠ -1 /\
  hardware_concurrency_current b no_quota os ≠ -1.
Proof.
  intros Hb Hfs Hread Hchecks Hdata.
  assert (Hlimit : get_docker_limit b m = Ret (-1)).
  { rewrite (get_docker_limit_unified _ _ _ Hfs).
    change 128 with (Z.of_nat 128) at 1.
    rewrite (checks_pass_read _ _ _ _ _ _ Hread Hchecks).
    rewrite (BOOST_VERIFY_close _ _ (checks_pass_close _ _ _ _ Hchecks)). simpl.
    f_equal. apply docker_limit_absent.
    destruct Hdata as [Htext | Hparsed]; [| exact Hparsed].
    rewrite (parse_pair_read_textual _ _ _ Hread Htext). simpl. lia. }
  split; [exact Hlimit |].
  split; [unfold docker_quota_t_ctor; now rewrite Hlimit |].
  destruct (docker_queries_absent b no_quota os Hb eq_refl) as [Hmax Hcur].
  split; [exact Hmax |]. split; [exact Hcur |].
  pose proof (get_hardware_concurrency_max_range b no_quota os).
  pose proof (hardware_concurrency_current_range b no_quota os).
  split; lia.
Qed.

Lemma unlimited_quota_is_absent_witness :
  get_docker_limit debug_docker unlimited_v2 = Ret (-1) /\
  get_hardware_concurrency_max debug_docker no_quota two_online = 4 /\
  hardware_concurrency_current debug_docker no_quota two_online = 2.
Proof.
  destruct (unlimited_quota_is_absent debug_docker unlimited_v2
              (kernel_file "max 100000") (chars "max 100000" ++ [LF]) two_online)
    as (Hlimit & _ & Hmax & Hcur & _).
  - reflexivity.
  - reflexivity.
  - reflexivity.
  - right. split; [simpl; lia | reflexivity].
  - left. reflexivity.
  - split; [exact Hlimit |]. split; [exact Hmax | exact Hcur].
Defined.

(** X20.  A read of cpu.max that fails or delivers nothing leaves no
    quota either: [value_pair[ 0 ]] was set to 0 before, so nothing is
    converted, whatever else the stack holds, and the legacy files are
    not tried. *)
Lemma unified_read_fails b m fd :
  fs m !! cpu_max = Some fd ->
  file_read fd = ReadError \/ file_read fd = ReadBytes [] ->
  close_verified b fd ->
  get_docker_limit b m = Ret (-1).
Proof.
  intros Hfs Hread Hclose. rewrite (get_docker_limit_unified _ _ _ Hfs).
  assert (Hbuf : (fst (read fd (value_pair_init m) 128) <? 128) = true /\
                 snd (read fd (value_pair_init m) 128) = value_pair_init m).
  { unfold read. destruct Hread as [-> | ->]; simpl; [now split |].
    split; [reflexivity |]. now rewrite drop_0. }
  destruct Hbuf as [-> ->].
  rewrite BOOST_VERIFY_true, (BOOST_VERIFY_close _ _ Hclose). simpl.
  destruct (value_pair_init_head m) as [tail ->]. reflexivity.
Qed.

(** ** Files that cannot be opened or read *)

(** X21.  With cpu.max missing, one legacy file that cannot be opened
    is enough for no quota: its value is -1, so whatever [read_int]
    returns for the other file the reader returns -1. *)
Lemma get_docker_limit_open_fails b m :
  fs m !! cpu_max = None ->
  fs m !! cpu_cfs_quota_us = None \/ fs m !! cpu_cfs_period_us = None ->
  (exists cfs_quota cfs_period,
     read_int b (fs m) (quota_value_mem m) cpu_cfs_quota_us = Ret cfs_quota /\
     read_int b (fs m) (period_value_mem m) cpu_cfs_period_us = Ret cfs_period) ->
  get_docker_limit b m = Ret (-1).
Proof.
  intros Hfs Hnone (q & p & Hq & Hp).
  rewrite (get_docker_limit_legacy _ _ Hfs), Hq, Hp. simpl. f_equal.
  apply docker_limit_absent.
  destruct Hnone as [H | H].
  - rewrite (read_int_open_fails b _ _ _ H) in Hq. injection Hq as <-. lia.
  - rewrite (read_int_open_fails b _ _ _ H) in Hp. injection Hp as <-. lia.
Qed.

Example get_docker_limit_no_cgroup b : get_docker_limit b no_cgroup = Ret (-1).
Proof. reflexivity. Qed.

(** After a read that fails or delivers nothing, [read_int] converts what
    the stack held. *)
Lemma read_int_read_fails b (fs : gmap string file) mem file_path fd :
  fs !! file_path = Some fd ->
  file_read fd = ReadError \/ file_read fd = ReadBytes [] ->
  close_verified b fd ->
  read_int b fs mem file_path = Ret (atoi (char_array 64 mem)).
Proof.
  intros Hfs Hread Hclose. unfold read_int. rewrite Hfs.
  assert (Hbuf : read fd (char_array 64 mem) 64 = (-1, char_array 64 mem) \/
                 read fd (char_array 64 mem) 64 = (0, char_array 64 mem)).
  { unfold read. destruct Hread as [-> | ->]; [now left | right].
    simpl. now rewrite drop_0. }
  destruct Hbuf as [-> | ->];
    now rewrite BOOST_VERIFY_true, (BOOST_VERIFY_close _ _ Hclose).
Qed.

(** C5.  The claim is that a legacy file that cannot be read gives -1
    for its value and that the reader then reports no quota.  [read_int]
    does not set [value[ 0 ]] as the cgroup v2 branch sets
    [value_pair[ 0 ]], and converts the bytes it finds.  With cpu.max
    missing, a quota of 200000 and a period that cannot be read,
    [read_int] returns for the period the 200000 that the call before
    left on the stack, and the reader returns a quota of 1; with both
    reads failing over the digits 200000 and 100000 it returns 2. *)
Theorem read_int_converts_stale_bytes :
  (fs legacy_period_unreadable !! cpu_max = None /\
   read_int debug_docker (fs legacy_period_unreadable)
     (period_value_mem legacy_period_unreadable) cpu_cfs_period_us = Ret 200000 /\
   get_docker_limit debug_docker legacy_period_unreadable = Ret 1) /\
  (fs legacy_unreadable !! cpu_max = None /\
   read_int debug_docker (fs legacy_unreadable) (quota_value_mem legacy_unreadable)
     cpu_cfs_quota_us = Ret 200000 /\
   read_int debug_docker (fs legacy_unreadable) (period_value_mem legacy_unreadable)
     cpu_cfs_period_us = Ret 100000 /\
   get_docker_limit debug_docker legacy_unreadable = Ret 2).
Proof. repeat split; vm_compute; reflexivity. Qed.

(** ** The checked reads *)

Lemma read_int_short b (fs : gmap string file) mem file_path fd data :
  fs !! file_path = Some fd -> file_read fd = ReadBytes data ->
  (length data < 64)%nat ->
  read_int b fs mem file_path =
    (BOOST_VERIFY b CloseFailed (file_close fd) ;;
     Ret (atoi (data ++ drop (length data) (char_array 64 mem)))).
Proof.
  intros Hfs Hread Hlen. unfold read_int.
  rewrite Hfs, (read_short _ _ _ _ Hread Hlen).
  destruct (Z.ltb_spec (Z.of_nat (length data)) 64); [| lia].
  now rewrite BOOST_VERIFY_true.
Qed.

Lemma read_int_full b (fs : gmap string file) mem file_path fd data :
  fs !! file_path = Some fd -> file_read fd = ReadBytes data ->
  (64 <= length data)%nat -> verify_checks b = true ->
  read_int b fs mem file_path = Abort ReadFilledBuffer.
Proof.
  intros Hfs Hread Hlen Hon. unfold read_int. rewrite Hfs.
  pose proof (read_fills fd data (char_array 64 mem) 64 Hread Hlen) as Hn.
  destruct (read fd (char_array 64 mem) 64) as [n value]. simpl in Hn. subst n.
  now rewrite (BOOST_VERIFY_false _ _ Hon).
Qed.

(** C6.  For a file that is opened and read: when the kernel delivers
    fewer bytes than the array holds (128 for cpu.max, 64 for a legacy
    file), [read] returns less than the size of the array and the check
    on it does not fail; when it delivers as many as the array holds or
    more, [read] returns exactly the size and the check aborts the
    process. *)
Theorem read_leaves_room_or_aborts b m mem file_path fd data :
  file_read fd = ReadBytes data ->
  (fs m !! cpu_max = Some fd ->
     ((length data < 128)%nat ->
        fst (read fd (value_pair_init m) 128) < 128 /\
        get_docker_limit b m ≠ Abort ReadFilledBuffer) /\
     ((128 <= length data)%nat ->
        fst (read fd (value_pair_init m) 128) = 128 /\
        (verify_checks b = true -> get_docker_limit b m = Abort ReadFilledBuffer))) /\
  (fs m !! file_path = Some fd ->
     ((length data < 64)%nat ->
        fst (read fd (char_array 64 mem) 64) < 64 /\
        read_int b (fs m) mem file_path ≠ Abort ReadFilledBuffer) /\
     ((64 <= length data)%nat ->
        fst (read fd (char_array 64 mem) 64) = 64 /\
        (verify_checks b = true ->
           read_int b (fs m) mem file_path = Abort ReadFilledBuffer))).
Proof.
  intros Hread. split; intros Hfs; split; intros Hlen.
  - rewrite (get_docker_limit_unified _ _ _ Hfs).
    rewrite (read_short _ _ _ _ Hread Hlen). simpl. split; [lia |].
    destruct (Z.ltb_spec (Z.of_nat (length data)) 128); [| lia].
    rewrite BOOST_VERIFY_true. simpl.
    unfold BOOST_VERIFY. now destruct (verify_checks b && negb (file_close fd)).
  - rewrite (get_docker_limit_unified _ _ _ Hfs).
    rewrite (read_fills _ _ _ _ Hread Hlen). split; [reflexivity |].
    intros Hb. simpl. now rewrite (BOOST_VERIFY_false _ _ Hb).
  - rewrite (read_int_short _ _ _ _ _ _ Hfs Hread Hlen).
    rewrite (read_short _ _ _ _ Hread Hlen). simpl. split; [lia |].
    unfold BOOST_VERIFY. now destruct (verify_checks b && negb (file_close fd)).
  - rewrite (read_fills _ _ _ _ Hread Hlen). split; [reflexivity |].
    intros Hb. now apply (read_int_full _ _ _ _ _ _ Hfs Hread Hlen).
Qed.

Lemma read_leaves_room_or_aborts_witness :
  get_docker_limit debug_docker unlimited_v2 ≠ Abort ReadFilledBuffer /\
  read_int debug_docker {[ cpu_cfs_quota_us := long_file 64 ]} [] cpu_cfs_quota_us
    = Abort ReadFilledBuffer.
Proof.
  split.
  - destruct (read_leaves_room_or_aborts debug_docker unlimited_v2 [] cpu_max
                (kernel_file "max 100000") (chars "max 100000" ++ [LF]) eq_refl)
      as [Hv2 _].
    destruct (Hv2 eq_refl) as [Hshort _].
    apply Hshort. simpl. lia.
  - destruct (read_leaves_room_or_aborts debug_docker
                (Machine {[ cpu_cfs_quota_us := long_file 64 ]} [] [] [])
                [] cpu_cfs_quota_us (long_file 64) (replicate 64 "1"%char) eq_refl)
      as [_ Hv1].
    destruct (Hv1 eq_refl) as [_ Hfull].
    apply Hfull; [simpl; lia | reflexivity].
Defined.

(** * Further properties *)

(** ** Decimal numbers under strtol *)

Lemma isspace_not_digit c : isspace c = true -> isdigit c = false.
Proof.
  unfold isspace, isdigit. intros H.
  destruct (Z.leb_spec 48 (code c)); [| reflexivity].
  destruct (Z.eqb_spec (code c) 32); [lia |].
  destruct (Z.leb_spec (code c) 13); [lia |].
  simpl in H. now rewrite andb_false_r in H.
Qed.

Lemma skip_space_all_space ws s : all_space ws -> skip_space (ws ++ s) = skip_space s.
Proof. induction 1 as [| c ws Hc _ IH]; simpl; [reflexivity |]. now rewrite Hc. Qed.

Lemma digits_uint d : forall acc rest,
  stops rest ->
  digits acc (chars (DecimalString.NilEmpty.string_of_uint d) ++ rest)
  = (uint_value acc d, rest).
Proof.
  induction d; intros acc rest Hrest; simpl;
    try (rewrite IHd by exact Hrest; reflexivity).
  destruct rest as [| c rest]; [reflexivity |].
  simpl in *. now rewrite Hrest.
Qed.

Lemma uint_value_pos d : forall p, uint_value (Z.pos p) d = Z.pos (Pos.of_uint_acc d p).
Proof.
  induction d; intros p; simpl; [reflexivity | ..];
    rewrite <- IHd; f_equal; lia.
Qed.

Lemma uint_value_0 d : uint_value 0 d = Z.of_N (Pos.of_uint d).
Proof.
  induction d; simpl; [reflexivity | exact IHd | ..]; apply uint_value_pos.
Qed.

Lemma isdigit_not_space c : isdigit c = true -> isspace c = false.
Proof.
  intros H. destruct (isspace c) eqn:E; [| reflexivity].
  apply isspace_not_digit in E. congruence.
Qed.

Lemma isdigit_not_sign c : isdigit c = true -> is_sign c = false.
Proof.
  unfold isdigit, is_sign. intros H. apply andb_true_iff in H as [H _].
  destruct (Z.leb_spec 48 (code c)); [| discriminate].
  destruct (Z.eqb_spec (code c) 43); [lia |].
  destruct (Z.eqb_spec (code c) 45); [lia | reflexivity].
Qed.

Lemma strtol_unsigned ws c s :
  all_space ws -> isdigit c = true ->
  strtol (ws ++ c :: s) =
    (clamp_long (fst (digits 0 (c :: s))), snd (digits 0 (c :: s))).
Proof.
  intros Hws Hc. unfold strtol. rewrite (skip_space_all_space _ _ Hws).
  cbn [skip_space]. rewrite (isdigit_not_space _ Hc), (isdigit_not_sign _ Hc), Hc.
  now destruct (digits 0 (c :: s)).
Qed.

Lemma strtol_minus ws c s :
  all_space ws -> isdigit c = true ->
  strtol (ws ++ "-"%char :: c :: s) =
    (clamp_long (- fst (digits 0 (c :: s))), snd (digits 0 (c :: s))).
Proof.
  intros Hws Hc. unfold strtol. rewrite (skip_space_all_space _ _ Hws).
  cbn [skip_space]. change (isspace "-") with false. cbv iota.
  change (is_sign "-") with true. cbv iota. change (code "-" =? 45) with true.
  rewrite Hc. now destruct (digits 0 (c :: s)).
Qed.

Lemma uint_head d :
  d <> Decimal.Nil ->
  exists c s, chars (DecimalString.NilEmpty.string_of_uint d) = c :: s /\
              isdigit c = true.
Proof. destruct d; intros H; [congruence | ..]; simpl; now eexists _, _. Qed.

Lemma strtol_uint ws d rest :
  all_space ws -> stops rest -> d <> Decimal.Nil ->
  strtol (ws ++ chars (DecimalString.NilEmpty.string_of_uint d) ++ rest)
  = (clamp_long (Z.of_N (Pos.of_uint d)), rest) /\
  strtol (ws ++ "-"%char :: chars (DecimalString.NilEmpty.string_of_uint d) ++ rest)
  = (clamp_long (- Z.of_N (Pos.of_uint d)), rest).
Proof.
  intros Hws Hrest Hd.
  pose proof (digits_uint d 0 rest Hrest) as Hdigits.
  destruct (uint_head d Hd) as (c & s & Hcs & Hc).
  rewrite Hcs in *. rewrite <- app_comm_cons in *.
  rewrite (strtol_unsigned _ _ _ Hws Hc), (strtol_minus _ _ _ Hws Hc), Hdigits.
  simpl. now rewrite uint_value_0.
Qed.

(** [strtol] reads a decimal number back, saturating at the ends of
    [long], and leaves [end] behind its last digit. *)
Lemma strtol_decimal ws z rest :
  all_space ws -> stops rest ->
  strtol (ws ++ decimal z ++ rest) = (clamp_long z, rest).
Proof.
  intros Hws Hrest. unfold decimal. destruct z as [| p | p].
  - apply (strtol_uint ws (Decimal.D0 Decimal.Nil) rest Hws Hrest). discriminate.
  - destruct (strtol_uint ws (Pos.to_uint p) rest Hws Hrest
                (DecimalPos.Unsigned.to_uint_nonnil p)) as [H _].
    rewrite DecimalPos.Unsigned.of_to in H. exact H.
  - destruct (strtol_uint ws (Pos.to_uint p) rest Hws Hrest
                (DecimalPos.Unsigned.to_uint_nonnil p)) as [_ H].
    rewrite DecimalPos.Unsigned.of_to in H. exact H.
Qed.

Lemma clamp_long_id z : LONG_MIN <= z <= LONG_MAX -> clamp_long z = z.
Proof. unfold clamp_long. lia. Qed.

Lemma to_int_clamp_long z : in_int z -> to_int (clamp_long z) = z.
Proof.
  intros H. rewrite clamp_long_id, to_int_id; try exact H; try reflexivity.
  unfold in_int, INT_MIN, INT_MAX in H. unfold LONG_MIN, LONG_MAX. lia.
Qed.

Lemma stops_space c rest : isspace c = true -> stops (c :: rest).
Proof. intros H. now apply isspace_not_digit. Qed.

Lemma stops_LF rest : stops (LF :: rest).
Proof. reflexivity. Qed.

(** Quota, white space, period and a character that is not a digit: the
    pair is read whatever follows. *)
Lemma parse_pair_decimal ws0 quota ws1 period rest :
  all_space ws0 -> all_space ws1 -> ws1 <> [] -> stops rest ->
  parse_pair (ws0 ++ decimal quota ++ ws1 ++ decimal period ++ rest)
  = (to_int (clamp_long quota), to_int (clamp_long period)).
Proof.
  intros Hws0 Hws1 Hne Hrest. unfold parse_pair.
  rewrite (strtol_decimal ws0 quota (ws1 ++ decimal period ++ rest) Hws0).
  - now rewrite (strtol_decimal ws1 period rest Hws1 Hrest).
  - destruct Hws1 as [| c ws1 Hc _]; [congruence |]. now apply stops_space.
Qed.

(** ** How long a decimal number is *)

Lemma length_string_of_uint d :
  length (chars (DecimalString.NilEmpty.string_of_uint d)) = Decimal.nb_digits d.
Proof. induction d; simpl; congruence. Qed.

Lemma uint_value_shift d : forall acc,
  uint_value acc d = acc * 10 ^ Z.of_nat (Decimal.nb_digits d) + uint_value 0 d.
Proof.
  induction d; intros acc; cbn [uint_value Decimal.nb_digits];
    [rewrite Z.pow_0_r; lia | ..];
    rewrite IHd, (IHd (0 * 10 + _)), Nat2Z.inj_succ, Z.pow_succ_r by lia; ring.
Qed.

Lemma uint_value_nonneg d : forall acc, 0 <= acc -> 0 <= uint_value acc d.
Proof. induction d; intros acc Hacc; simpl; [exact Hacc | ..]; apply IHd; lia. Qed.

Lemma nzhead_bound d :
  Decimal.nzhead d = Decimal.Nil \/
  10 ^ Z.of_nat (Decimal.nb_digits (Decimal.nzhead d))
    <= 10 * uint_value 0 (Decimal.nzhead d).
Proof.
  induction d; cbn [Decimal.nzhead]; [now left | exact IHd | ..]; right;
    cbn [uint_value Decimal.nb_digits];
    rewrite uint_value_shift, Nat2Z.inj_succ, Z.pow_succ_r by lia;
    pose proof (uint_value_nonneg d 0 ltac:(lia));
    assert (0 < 10 ^ Z.of_nat (Decimal.nb_digits d)) by (apply Z.pow_pos_nonneg; lia);
    nia.
Qed.

Lemma to_uint_bound p :
  10 ^ Z.of_nat (Decimal.nb_digits (Pos.to_uint p)) <= 10 * Z.pos p.
Proof.
  pose proof (DecimalPos.Unsigned.to_of (Pos.to_uint p)) as Hnorm.
  rewrite DecimalPos.Unsigned.of_to in Hnorm. cbn [N.to_uint] in Hnorm.
  pose proof (DecimalPos.Unsigned.to_uint_nonzero p) as Hnz.
  pose proof (uint_value_0 (Pos.to_uint p)) as Hvalue.
  rewrite DecimalPos.Unsigned.of_to in Hvalue. cbn [Z.of_N] in Hvalue.
  unfold Decimal.unorm in Hnorm.
  destruct (nzhead_bound (Pos.to_uint p)) as [Hnil | Hbound].
  - rewrite Hnil in Hnorm. congruence.
  - assert (Heq : Decimal.nzhead (Pos.to_uint p) = Pos.to_uint p).
    { destruct (Decimal.nzhead (Pos.to_uint p)); congruence. }
    rewrite Heq, Hvalue in Hbound. exact Hbound.
Qed.

Lemma nb_digits_long p :
  Z.pos p <= 9223372036854775808 -> (Decimal.nb_digits (Pos.to_uint p) <= 19)%nat.
Proof.
  intros Hp. pose proof (to_uint_bound p) as Hbound.
  destruct (Nat.le_gt_cases (Decimal.nb_digits (Pos.to_uint p)) 19) as [| Hlong];
    [assumption |].
  assert (10 ^ 20 <= 10 ^ Z.of_nat (Decimal.nb_digits (Pos.to_uint p)))
    by (apply Z.pow_le_mono_r; lia).
  change (10 ^ 20) with 100000000000000000000 in *. lia.
Qed.

(** A [long] takes at most twenty characters. *)
Lemma decimal_length z :
  LONG_MIN <= z <= LONG_MAX -> (length (decimal z) <= 20)%nat.
Proof.
  unfold LONG_MIN, LONG_MAX, decimal. intros Hz. destruct z as [| p | p].
  - simpl. lia.
  - cbn [Z.to_int DecimalString.NilEmpty.string_of_int].
    rewrite length_string_of_uint. pose proof (nb_digits_long p). lia.
  - cbn [Z.to_int DecimalString.NilEmpty.string_of_int]. unfold chars. simpl.
    fold (chars (DecimalString.NilEmpty.string_of_uint (Pos.to_uint p))).
    rewrite length_string_of_uint. pose proof (nb_digits_long p). lia.
Qed.

Lemma cpu_max_text_length quota period :
  LONG_MIN <= quota <= LONG_MAX -> LONG_MIN <= period <= LONG_MAX ->
  (length (cpu_max_text quota period) <= 42)%nat.
Proof.
  intros Hq Hp. unfold cpu_max_text.
  rewrite length_app. cbn [length]. rewrite length_app. cbn [length].
  pose proof (decimal_length _ Hq). pose proof (decimal_length _ Hp). lia.
Qed.

Lemma legacy_text_length n :
  LONG_MIN <= n <= LONG_MAX -> (length (legacy_text n) <= 21)%nat.
Proof.
  intros Hn. unfold legacy_text. rewrite length_app. cbn [length].
  pose proof (decimal_length _ Hn). lia.
Qed.

(** ** The quota reader on what the kernel writes *)

Lemma parse_pair_cpu_max_text quota period rest :
  parse_pair (cpu_max_text quota period ++ rest)
  = (to_int (clamp_long quota), to_int (clamp_long period)).
Proof.
  unfold cpu_max_text.
  rewrite <- app_assoc, <- app_comm_cons, <- app_assoc.
  apply (parse_pair_decimal [] quota [" "%char] period ([LF] ++ rest)).
  - constructor.
  - now repeat constructor.
  - discriminate.
  - apply stops_LF.
Qed.

Lemma in_int_long z : in_int z -> LONG_MIN <= z <= LONG_MAX.
Proof. unfold in_int, INT_MIN, INT_MAX, LONG_MIN, LONG_MAX. lia. Qed.

(** X1.  Lines 104-106 read back the pair the kernel wrote: for a quota
    and a period that are [int]s, the text "quota period\n" gives
    exactly that pair, whatever bytes follow the line feed in the
    array. *)
Theorem parse_pair_reads_cpu_max quota period rest :
  in_int quota -> in_int period ->
  parse_pair (cpu_max_text quota period ++ rest) = (quota, period).
Proof.
  intros Hq Hp. rewrite parse_pair_cpu_max_text.
  now rewrite !to_int_clamp_long.
Qed.

Lemma parse_pair_reads_cpu_max_witness :
  parse_pair (cpu_max_text 150000 100000 ++ chars "stale 77") = (150000, 100000).
Proof.
  apply (parse_pair_reads_cpu_max 150000 100000 (chars "stale 77"));
    unfold in_int, INT_MIN, INT_MAX; lia.
Defined.

Lemma get_docker_limit_cpu_max_text b m fd quota period :
  fs m !! cpu_max = Some fd ->
  file_read fd = ReadBytes (cpu_max_text quota period) ->
  close_verified b fd ->
  LONG_MIN <= quota <= LONG_MAX -> LONG_MIN <= period <= LONG_MAX ->
  get_docker_limit b m = Ret (docker_limit (to_int quota) (to_int period)).
Proof.
  intros Hfs Hread Hclose Hq Hp.
  pose proof (cpu_max_text_length _ _ Hq Hp) as Hlen.
  rewrite (get_docker_limit_unified _ _ _ Hfs).
  rewrite (read_short _ _ _ _ Hread) by lia. cbn [fst snd].
  destruct (Z.ltb_spec (Z.of_nat (length (cpu_max_text quota period))) 128); [| lia].
  rewrite BOOST_VERIFY_true, (BOOST_VERIFY_close _ _ Hclose).
  rewrite parse_pair_cpu_max_text, !clamp_long_id by assumption. reflexivity.
Qed.

(** X2.  When cpu.max opens and holds "quota period\n" for two numbers
    of the kernel (any [long]s), the reader returns the limit of that
    pair converted to [int]: the line is always shorter than the array,
    and neither the stale bytes behind it nor the legacy files have a
    say. *)
Theorem get_docker_limit_reads_cpu_max b m fd quota period :
  fs m !! cpu_max = Some fd ->
  file_read fd = ReadBytes (cpu_max_text quota period) ->
  close_verified b fd ->
  LONG_MIN <= quota <= LONG_MAX -> LONG_MIN <= period <= LONG_MAX ->
  get_docker_limit b m = Ret (docker_limit (to_int quota) (to_int period)) /\
  (in_int quota -> in_int period ->
   get_docker_limit b m = Ret (docker_limit quota period)).
Proof.
  intros Hfs Hread Hclose Hq Hp.
  pose proof (get_docker_limit_cpu_max_text _ _ _ _ _ Hfs Hread Hclose Hq Hp) as H.
  split; [exact H |]. intros Hiq Hip. now rewrite H, !to_int_id.
Qed.

Lemma get_docker_limit_reads_cpu_max_witness :
  get_docker_limit debug_docker
    (Machine {[ cpu_max := served (cpu_max_text 250000 100000);
                cpu_cfs_quota_us := unreadable ]}
             (chars "9999") (chars "200000") [])
  = Ret 3.
Proof.
  apply (get_docker_limit_reads_cpu_max debug_docker _
           (served (cpu_max_text 250000 100000)) 250000 100000).
  - reflexivity.
  - reflexivity.
  - now right.
  - unfold LONG_MIN, LONG_MAX. lia.
  - unfold LONG_MIN, LONG_MAX. lia.
  - unfold in_int, INT_MIN, INT_MAX. lia.
  - unfold in_int, INT_MIN, INT_MAX. lia.
Defined.

Lemma atoi_legacy_text n rest :
  LONG_MIN <= n <= LONG_MAX -> atoi (legacy_text n ++ rest) = to_int n.
Proof.
  intros Hn. unfold atoi, legacy_text. rewrite <- app_assoc.
  pose proof (strtol_decimal [] n ([LF] ++ rest) ltac:(constructor) (stops_LF rest))
    as H.
  rewrite app_nil_l in H. rewrite H. cbn [fst]. now rewrite clamp_long_id.
Qed.

Lemma read_int_legacy_text b (fs : gmap string file) mem file_path fd n :
  fs !! file_path = Some fd ->
  file_read fd = ReadBytes (legacy_text n) ->
  close_verified b fd ->
  LONG_MIN <= n <= LONG_MAX ->
  read_int b fs mem file_path = Ret (to_int n).
Proof.
  intros Hfs Hread Hclose Hn.
  pose proof (legacy_text_length _ Hn) as Hlen.
  rewrite (read_int_short _ _ _ _ _ _ Hfs Hread) by lia.
  rewrite (BOOST_VERIFY_close _ _ Hclose). cbn.
  now rewrite atoi_legacy_text.
Qed.

(** X3.  [read_int] on a legacy file that opens and holds one number of
    the kernel and a line feed returns that number converted to [int],
    and the number itself when it is an [int]: the line feed ends the
    conversion, so the uninitialised rest of the array does not
    matter. *)
Theorem read_int_reads_legacy b (fs : gmap string file) mem file_path fd n :
  fs !! file_path = Some fd ->
  file_read fd = ReadBytes (legacy_text n) ->
  close_verified b fd ->
  LONG_MIN <= n <= LONG_MAX ->
  read_int b fs mem file_path = Ret (to_int n) /\
  (in_int n -> read_int b fs mem file_path = Ret n).
Proof.
  intros Hfs Hread Hclose Hn.
  pose proof (read_int_legacy_text _ _ mem _ _ _ Hfs Hread Hclose Hn) as H.
  split; [exact H |]. intros Hin. now rewrite H, to_int_id.
Qed.

Lemma read_int_reads_legacy_witness :
  read_int debug_docker {[ cpu_cfs_period_us := served (legacy_text 100000) ]}
    (chars "0123456789") cpu_cfs_period_us = Ret 100000.
Proof.
  apply (read_int_reads_legacy debug_docker _ (chars "0123456789")
           cpu_cfs_period_us (served (legacy_text 100000)) 100000).
  - reflexivity.
  - reflexivity.
  - now right.
  - unfold LONG_MIN, LONG_MAX. lia.
  - unfold in_int, INT_MIN, INT_MAX. lia.
Defined.

(** X4.  Without cpu.max the reader combines the two legacy files: when
    both open and hold a number of the kernel and a line feed, it
    returns the limit of the two numbers converted to [int], whatever
    the stack held under the arrays. *)
Theorem get_docker_limit_reads_legacy b m fq fp quota period :
  fs m !! cpu_max = None ->
  fs m !! cpu_cfs_quota_us = Some fq ->
  file_read fq = ReadBytes (legacy_text quota) -> close_verified b fq ->
  fs m !! cpu_cfs_period_us = Some fp ->
  file_read fp = ReadBytes (legacy_text period) -> close_verified b fp ->
  LONG_MIN <= quota <= LONG_MAX -> LONG_MIN <= period <= LONG_MAX ->
  get_docker_limit b m = Ret (docker_limit (to_int quota) (to_int period)).
Proof.
  intros Hfs Hfq Hrq Hcq Hfp Hrp Hcp Hq Hp.
  rewrite (get_docker_limit_legacy _ _ Hfs).
  rewrite (read_int_legacy_text _ _ _ _ _ _ Hfq Hrq Hcq Hq).
  now rewrite (read_int_legacy_text _ _ _ _ _ _ Hfp Hrp Hcp Hp).
Qed.

Lemma get_docker_limit_reads_legacy_witness :
  get_docker_limit debug_docker
    (Machine {[ cpu_cfs_quota_us := served (legacy_text 350000);
                cpu_cfs_period_us := served (legacy_text 100000) ]}
             [] (chars "11111111") (chars "22222222"))
  = Ret 4.
Proof.
  apply (get_docker_limit_reads_legacy debug_docker _
           (served (legacy_text 350000)) (served (legacy_text 100000))
           350000 100000);
    try reflexivity; try (now right); unfold LONG_MIN, LONG_MAX; lia.
Defined.

(** X5.  The legacy quota file of a group without limit holds -1: with
    cpu.max missing and a quota file that holds a number that is zero
    or negative, the reader returns -1 whatever the period file gives,
    as long as reading it does not abort. *)
Theorem legacy_quota_not_positive b m fq quota cfs_period :
  fs m !! cpu_max = None ->
  fs m !! cpu_cfs_quota_us = Some fq ->
  file_read fq = ReadBytes (legacy_text quota) -> close_verified b fq ->
  in_int quota -> quota <= 0 ->
  read_int b (fs m) (period_value_mem m) cpu_cfs_period_us = Ret cfs_period ->
  get_docker_limit b m = Ret (-1).
Proof.
  intros Hfs Hfq Hrq Hcq Hin Hq Hperiod.
  rewrite (get_docker_limit_legacy _ _ Hfs).
  rewrite (read_int_legacy_text _ _ _ _ _ _ Hfq Hrq Hcq (in_int_long _ Hin)).
  rewrite Hperiod, to_int_id by exact Hin. cbn.
  f_equal. apply docker_limit_absent. now left.
Qed.

Lemma legacy_quota_not_positive_witness :
  get_docker_limit debug_docker
    (Machine {[ cpu_cfs_quota_us := served (legacy_text (-1));
                cpu_cfs_period_us := served (legacy_text 100000) ]} [] [] [])
  = Ret (-1).
Proof.
  apply (legacy_quota_not_positive debug_docker _ (served (legacy_text (-1)))
           (-1) 100000);
    try reflexivity; try (now right);
    unfold in_int, INT_MIN, INT_MAX; lia.
Defined.

(** X6.  Once cpu.max opens, the legacy files are not looked at: two
    machines with the same cpu.max and the same stack under
    [value_pair] give the same outcome, whatever their legacy files and
    the stack under [value] are. *)
Theorem cpu_max_takes_precedence b m m' fd :
  fs m !! cpu_max = Some fd ->
  fs m' !! cpu_max = Some fd ->
  value_pair_mem m = value_pair_mem m' ->
  get_docker_limit b m = get_docker_limit b m'.
Proof.
  intros Hfs Hfs' Hmem.
  rewrite (get_docker_limit_unified _ _ _ Hfs), (get_docker_limit_unified _ _ _ Hfs').
  unfold value_pair_init. now rewrite Hmem.
Qed.

Lemma cpu_max_takes_precedence_witness :
  get_docker_limit debug_docker
    (Machine {[ cpu_max := kernel_file "150000 100000";
                cpu_cfs_quota_us := kernel_file "900000";
                cpu_cfs_period_us := kernel_file "100000" ]} [] [] [])
  = get_docker_limit debug_docker
      (Machine {[ cpu_max := kernel_file "150000 100000" ]} [] (chars "7") (chars "8")).
Proof.
  apply (cpu_max_takes_precedence debug_docker _ _ (kernel_file "150000 100000"));
    reflexivity.
Defined.

(** X7.  A quota that does not fit an [int] is reduced modulo 2^32
    before it is used: adding 2^32 to the quota in cpu.max does not
    change what the reader returns. *)
Theorem quota_is_read_modulo_2_32 b m m' fd fd' quota period :
  fs m !! cpu_max = Some fd ->
  file_read fd = ReadBytes (cpu_max_text quota period) ->
  close_verified b fd ->
  fs m' !! cpu_max = Some fd' ->
  file_read fd' = ReadBytes (cpu_max_text (quota + 4294967296) period) ->
  close_verified b fd' ->
  LONG_MIN <= quota -> quota + 4294967296 <= LONG_MAX ->
  LONG_MIN <= period <= LONG_MAX ->
  get_docker_limit b m' = get_docker_limit b m.
Proof.
  intros Hfs Hread Hclose Hfs' Hread' Hclose' Hlo Hhi Hp.
  rewrite (get_docker_limit_cpu_max_text _ _ _ _ _ Hfs Hread Hclose)
    by (unfold LONG_MIN, LONG_MAX in *; lia).
  rewrite (get_docker_limit_cpu_max_text _ _ _ _ _ Hfs' Hread' Hclose')
    by (unfold LONG_MIN, LONG_MAX in *; lia).
  do 2 f_equal. unfold to_int.
  replace (quota + 4294967296 + 2147483648)
    with (quota + 2147483648 + 1 * 4294967296) by lia.
  now rewrite Z.mod_add.
Qed.

Lemma quota_is_read_modulo_2_32_witness :
  get_docker_limit debug_docker
    (Machine {[ cpu_max := served (cpu_max_text 4295167296 100000) ]} [] [] [])
  = get_docker_limit debug_docker
      (Machine {[ cpu_max := served (cpu_max_text 200000 100000) ]} [] [] []).
Proof.
  apply (quota_is_read_modulo_2_32 debug_docker _ _
           (served (cpu_max_text 200000 100000))
           (served (cpu_max_text 4295167296 100000)) 200000 100000);
    try reflexivity; try (now right); unfold LONG_MIN, LONG_MAX; lia.
Defined.

(** ** The arithmetic of the limit *)

(** Comparisons of literals, by evaluation. *)
Ltac by_evaluation := vm_compute; first [reflexivity | discriminate].

(** X8.  While the sum stays an [int] the limit is the whole number of
    periods nearest to the quota: it is at least 1, it is 1 for a quota
    below half a period, and from half a period on it times the period
    is no further than half a period from the quota. *)
Theorem docker_limit_is_nearest cfs_quota cfs_period :
  0 < cfs_quota -> 0 < cfs_period ->
  cfs_quota + cfs_period / 2 <= INT_MAX ->
  1 <= docker_limit cfs_quota cfs_period /\
  (cfs_quota + cfs_period / 2 < cfs_period ->
     docker_limit cfs_quota cfs_period = 1) /\
  (cfs_period <= cfs_quota + cfs_period / 2 ->
     Z.abs (2 * cfs_quota - 2 * docker_limit cfs_quota cfs_period * cfs_period)
       <= cfs_period).
Proof.
  intros Hq Hp Hsum.
  rewrite (docker_limit_round_half_up _ _ Hq Hp Hsum). unfold round_half_up_cores.
  pose proof (Z.div_mod (cfs_quota + cfs_period / 2) cfs_period ltac:(lia)) as Hdm.
  pose proof (Z.mod_pos_bound (cfs_quota + cfs_period / 2) cfs_period Hp) as Hm.
  pose proof (Z.div_mod cfs_period 2 ltac:(lia)) as Hhalf.
  pose proof (Z.mod_pos_bound cfs_period 2 ltac:(lia)) as Hhm.
  set (d := (cfs_quota + cfs_period / 2) / cfs_period) in *.
  set (r := (cfs_quota + cfs_period / 2) mod cfs_period) in *.
  split; [lia |]. split.
  - intros Hlt. assert (d <= 0) by nia. lia.
  - intros Hge. assert (1 <= d) by nia.
    rewrite Z.max_r by lia. apply Z.abs_le. nia.
Qed.

Lemma docker_limit_is_nearest_witness :
  Z.abs (2 * 260000 - 2 * docker_limit 260000 100000 * 100000) <= 100000.
Proof.
  apply (docker_limit_is_nearest 260000 100000); by_evaluation.
Defined.

(** X9.  A quota of [n] whole periods gives [n]. *)
Theorem docker_limit_whole_periods n cfs_period :
  1 <= n -> 0 < cfs_period ->
  n * cfs_period + cfs_period / 2 <= INT_MAX ->
  docker_limit (n * cfs_period) cfs_period = n.
Proof.
  intros Hn Hp Hsum.
  rewrite docker_limit_round_half_up by (try assumption; nia).
  unfold round_half_up_cores.
  rewrite Z.div_add_l by lia.
  rewrite (Z.div_small (cfs_period / 2) cfs_period).
  - lia.
  - split; [apply Z.div_pos; lia | apply Z.div_lt; lia].
Qed.

Lemma docker_limit_whole_periods_witness : docker_limit (8 * 100000) 100000 = 8.
Proof.
  apply (docker_limit_whole_periods 8 100000); by_evaluation.
Defined.

(** X10.  With an even period a quota of [n] periods and a half is
    rounded up to [n + 1], and one microsecond less is rounded down to
    [n] (to 1 when [n] is 0). *)
Theorem docker_limit_half_period n half :
  0 <= n -> 0 < half ->
  n * (2 * half) + 2 * half <= INT_MAX ->
  docker_limit (n * (2 * half) + half) (2 * half) = n + 1 /\
  (0 < n * (2 * half) + half - 1 ->
   docker_limit (n * (2 * half) + half - 1) (2 * half) = Z.max 1 n).
Proof.
  intros Hn Hhalf Hsum.
  assert (Hdiv : 2 * half / 2 = half) by (rewrite Z.mul_comm; apply Z.div_mul; lia).
  split.
  - rewrite docker_limit_round_half_up by (rewrite ?Hdiv; nia).
    unfold round_half_up_cores. rewrite Hdiv.
    replace (n * (2 * half) + half + half) with ((n + 1) * (2 * half)) by ring.
    rewrite Z.div_mul by lia. lia.
  - intros Hpos.
    rewrite docker_limit_round_half_up by (rewrite ?Hdiv; nia).
    unfold round_half_up_cores. rewrite Hdiv.
    replace (n * (2 * half) + half - 1 + half)
      with (n * (2 * half) + (2 * half - 1)) by ring.
    rewrite Z.div_add_l by lia.
    rewrite (Z.div_small (2 * half - 1)) by lia. lia.
Qed.

Lemma docker_limit_half_period_witness :
  docker_limit 150000 100000 = 2 /\ docker_limit 149999 100000 = 1.
Proof.
  destruct (docker_limit_half_period 1 50000) as [Hup Hdown];
    [by_evaluation | by_evaluation | by_evaluation |].
  split; [exact Hup |]. apply Hdown. by_evaluation.
Defined.

(** X11.  While the sums stay [int]s a larger quota never gives a
    smaller limit. *)
Theorem docker_limit_monotone cfs_quota cfs_quota' cfs_period :
  0 < cfs_quota -> cfs_quota <= cfs_quota' -> 0 < cfs_period ->
  cfs_quota' + cfs_period / 2 <= INT_MAX ->
  docker_limit cfs_quota cfs_period <= docker_limit cfs_quota' cfs_period.
Proof.
  intros Hq Hle Hp Hsum.
  rewrite !docker_limit_round_half_up by lia.
  unfold round_half_up_cores.
  apply Z.max_le_compat_l, Z.div_le_mono; lia.
Qed.

Lemma docker_limit_monotone_witness :
  docker_limit 120000 100000 <= docker_limit 180000 100000.
Proof.
  apply (docker_limit_monotone 120000 180000 100000); by_evaluation.
Defined.

(** ** When the reader returns and when it aborts *)

(** X12.  Whatever the files and the stack hold, as long as line 119 is
    defined (its sum is an [int], or it is not reached),
    [get_docker_limit] either returns -1 or a positive [int], never 0
    and nothing below -1, or it aborts, and it aborts only in a build
    where [BOOST_VERIFY] checks. *)
Theorem get_docker_limit_outcome b m :
  line_119_defined b m ->
  match get_docker_limit b m with
  | Ret limit => limit = -1 \/ 1 <= limit <= INT_MAX
  | Abort _ => verify_checks b = true
  end.
Proof.
  intros Hdefined.
  destruct (get_docker_limit b m) as [limit | f] eqn:Hlimit.
  - apply (docker_quota_t_ctor_cases b m (DockerQuota limit) Hdefined).
    unfold docker_quota_t_ctor. now rewrite Hlimit.
  - destruct (verify_checks b) eqn:Hchecks; [reflexivity |].
    destruct (get_docker_limit_release b m Hchecks) as (limit & Hret).
    congruence.
Qed.

Lemma get_docker_limit_outcome_witness :
  match get_docker_limit debug_docker two_and_a_half with
  | Ret limit => limit = -1 \/ 1 <= limit <= INT_MAX
  | Abort _ => verify_checks debug_docker = true
  end.
Proof.
  apply (get_docker_limit_outcome debug_docker two_and_a_half).
  vm_compute. intros _ _ H. discriminate H.
Defined.

Lemma read_fills_iff fd buf count :
  (fst (read fd buf count) <? Z.of_nat count) = false <-> fills fd count.
Proof.
  unfold read, fills. destruct (file_read fd) as [| data]; cbn [fst].
  - split; [intros H; apply Z.ltb_ge in H; lia |
            intros (data & Hdata & _); discriminate].
  - destruct (Z.ltb_spec (Z.of_nat (Nat.min (length data) count)) (Z.of_nat count));
      split; try discriminate; try reflexivity.
    + intros (data' & [= <-] & Hlen). lia.
    + intros _. exists data. split; [reflexivity | lia].
Qed.

Lemma checks_abort_iff b fd (fits : bool) (v : Z) f :
  (BOOST_VERIFY b ReadFilledBuffer fits ;;
   BOOST_VERIFY b CloseFailed (file_close fd) ;; Ret v) = Abort f <->
  verify_checks b = true /\
  ((f = ReadFilledBuffer /\ fits = false) \/
   (f = CloseFailed /\ fits = true /\ file_close fd = false)).
Proof.
  unfold BOOST_VERIFY.
  destruct (verify_checks b), fits, (file_close fd); cbn; split; intros H;
    try discriminate H;
    try (injection H as <-; split; [reflexivity |];
         first [left; now split | right; now repeat split]);
    destruct H as (Hb & [[-> Hf] | (-> & Hf & Hc)]); try discriminate; reflexivity.
Qed.

Lemma read_int_opened b (fs : gmap string file) mem file_path fd :
  fs !! file_path = Some fd ->
  read_int b fs mem file_path =
    (BOOST_VERIFY b ReadFilledBuffer (fst (read fd (char_array 64 mem) 64) <? 64) ;;
     BOOST_VERIFY b CloseFailed (file_close fd) ;;
     Ret (atoi (snd (read fd (char_array 64 mem) 64)))).
Proof.
  intros Hfs. unfold read_int. rewrite Hfs.
  now destruct (read fd (char_array 64 mem) 64).
Qed.

(** X13.  [read_int] aborts in exactly two cases, both in a build where
    [BOOST_VERIFY] checks: the opened file fills the 64 bytes of the
    array, or it does not and [close] fails.  A file that cannot be
    opened or cannot be read never aborts it. *)
Theorem read_int_aborts_iff b (fs : gmap string file) mem file_path f :
  read_int b fs mem file_path = Abort f <->
  verify_checks b = true /\
  exists fd, fs !! file_path = Some fd /\
    ((f = ReadFilledBuffer /\ fills fd 64) \/
     (f = CloseFailed /\ ~ fills fd 64 /\ file_close fd = false)).
Proof.
  destruct (fs !! file_path) as [fd |] eqn:Hfs.
  - rewrite (read_int_opened _ _ _ _ _ Hfs), checks_abort_iff.
    change 64 with (Z.of_nat 64).
    pose proof (read_fills_iff fd (char_array 64 mem) 64) as Hfills.
    destruct (fst (read fd (char_array 64 mem) 64) <? Z.of_nat 64) eqn:Hlt.
    + assert (Hno : ~ fills fd 64) by (intros H; apply Hfills in H; discriminate).
      split.
      * intros (Hb & [[_ H] | (-> & _ & Hclose)]); [discriminate |].
        split; [exact Hb |]. exists fd. split; [reflexivity |]. right. tauto.
      * intros (Hb & fd' & [= <-] & [[_ H] | (-> & _ & Hclose)]); [tauto |].
        split; [exact Hb |]. right. tauto.
    + assert (Hyes : fills fd 64) by now apply Hfills.
      split.
      * intros (Hb & [[-> _] | (_ & H & _)]); [| discriminate].
        split; [exact Hb |]. exists fd. split; [reflexivity |]. left. tauto.
      * intros (Hb & fd' & [= <-] & [[-> _] | (_ & H & _)]); [| tauto].
        split; [exact Hb |]. left. tauto.
  - rewrite (read_int_open_fails _ _ _ _ Hfs). split; [discriminate |].
    intros (_ & fd & H & _). discriminate.
Qed.

(** X14.  With cpu.max opened, [get_docker_limit] aborts in exactly the
    same two cases, on the 128 bytes of [value_pair]: never on a read
    that fails, on an empty file or on contents it cannot parse. *)
Theorem get_docker_limit_aborts_iff b m fd f :
  fs m !! cpu_max = Some fd ->
  (get_docker_limit b m = Abort f <->
   verify_checks b = true /\
   ((f = ReadFilledBuffer /\ fills fd 128) \/
    (f = CloseFailed /\ ~ fills fd 128 /\ file_close fd = false))).
Proof.
  intros Hfs.
  assert (Hshape : forall q p,
    (get_docker_limit b m = Abort f <->
     (BOOST_VERIFY b ReadFilledBuffer (fst (read fd (value_pair_init m) 128) <? 128) ;;
      BOOST_VERIFY b CloseFailed (file_close fd) ;; Ret (docker_limit q p)) = Abort f)).
  { intros q p. rewrite (get_docker_limit_unified _ _ _ Hfs). unfold BOOST_VERIFY.
    destruct (verify_checks b && negb _); cbn; [tauto |].
    destruct (verify_checks b && negb _); cbn; [tauto |].
    split; discriminate. }
  rewrite (Hshape 0 0), checks_abort_iff. change 128 with (Z.of_nat 128).
  pose proof (read_fills_iff fd (value_pair_init m) 128) as Hfills.
  destruct (fst (read fd (value_pair_init m) 128) <? Z.of_nat 128) eqn:Hlt.
  - assert (Hno : ~ fills fd 128) by (intros H; apply Hfills in H; discriminate).
    split; intros (Hb & [[_ H] | (-> & _ & Hclose)]);
      try discriminate; try tauto; (split; [exact Hb |]; right; tauto).
  - assert (Hyes : fills fd 128) by now apply Hfills.
    split; intros (Hb & [[-> _] | (_ & H & _)]);
      try discriminate; try tauto; (split; [exact Hb |]; left; tauto).
Qed.

Lemma get_docker_limit_aborts_iff_witness :
  get_docker_limit debug_docker
    (Machine {[ cpu_max := File (ReadBytes (chars "max 100000" ++ [LF])) false ]}
             [] [] [])
  = Abort CloseFailed.
Proof.
  assert (Hfs : fs (Machine {[ cpu_max :=
                    File (ReadBytes (chars "max 100000" ++ [LF])) false ]} [] [] [])
                  !! cpu_max
                = Some (File (ReadBytes (chars "max 100000" ++ [LF])) false))
    by reflexivity.
  apply (get_docker_limit_aborts_iff debug_docker _ _ CloseFailed Hfs).
  split; [reflexivity |]. right. split; [reflexivity |]. split; [| reflexivity].
  intros (data & [= <-] & Hlen). simpl in Hlen. lia.
Defined.

(** ** The queries across the builds *)

Lemma to_hc_idempotent b z : to_hc b (to_hc b z) = to_hc b z.
Proof.
  unfold to_hc. pose proof (hc_modulus_ge_2 b). apply Z.mod_mod. lia.
Qed.

Lemma to_hc_1 b : to_hc b 1 = 1.
Proof. apply to_hc_id. pose proof (hc_max_pos b). lia. Qed.

(** X15.  Only the Linux branches tell the online count from the
    configured one.  In the single-threaded build, under Emscripten and
    on the other targets [hardware_concurrency_current] returns what
    [get_hardware_concurrency_max] returns at the same moment; both are
    1 in the single-threaded build and under Emscripten without
    threading support. *)
Theorem current_is_max_off_linux b dq os :
  impl b = SingleThreaded \/ impl b = Standard EmscriptenPthreads \/
  impl b = Standard OtherTarget ->
  hardware_concurrency_current b dq os = get_hardware_concurrency_max b dq os /\
  (impl b = SingleThreaded -> get_hardware_concurrency_max b dq os = 1) /\
  (impl b = Standard EmscriptenPthreads ->
   emscripten_has_threading_support os = 0 ->
   get_hardware_concurrency_max b dq os = 1).
Proof.
  intros Himpl.
  unfold hardware_concurrency_current, get_hardware_concurrency_max,
    current_operand, max_operand, get_hardware_concurrency_max, max_operand.
  destruct Himpl as [-> | [-> | ->]].
  - split; [reflexivity |]. split; [intros _; apply to_hc_1 | discriminate].
  - split; [apply to_hc_idempotent |]. split; [discriminate |].
    intros _ ->. apply to_hc_1.
  - split; [reflexivity |]. split; discriminate.
Qed.

Lemma current_is_max_off_linux_witness :
  hardware_concurrency_current (Build (Standard EmscriptenPthreads) false false 8)
    no_quota (OS 0 0 1 12 0 0)
  = get_hardware_concurrency_max (Build (Standard EmscriptenPthreads) false false 8)
      no_quota (OS 0 0 1 12 0 0).
Proof.
  apply (current_is_max_off_linux (Build (Standard EmscriptenPthreads) false false 8)
           no_quota (OS 0 0 1 12 0 0)).
  right. left. reflexivity.
Defined.

(** X16.  Without a quota the build with docker limits answers as the
    standard Linux build does: [get_nprocs_conf()] for the maximum and
    [get_nprocs()] for the current value. *)
Theorem no_quota_is_standard_linux b b' dq dq' os :
  impl b = DockerLimits -> impl b' = Standard Linux ->
  hc_bits b = hc_bits b' ->
  value dq = -1 ->
  get_hardware_concurrency_max b dq os = get_hardware_concurrency_max b' dq' os /\
  hardware_concurrency_current b dq os = hardware_concurrency_current b' dq' os.
Proof.
  intros Hb Hb' Hbits Hq.
  destruct (docker_queries_absent b dq os Hb Hq) as [-> ->].
  unfold get_hardware_concurrency_max, hardware_concurrency_current,
    max_operand, current_operand, to_hc, hc_modulus.
  now rewrite Hb', Hbits.
Qed.

Lemma no_quota_is_standard_linux_witness :
  hardware_concurrency_current release_docker no_quota two_online
  = hardware_concurrency_current (Build (Standard Linux) false false 16)
      (DockerQuota 7) two_online.
Proof.
  apply (no_quota_is_standard_linux release_docker
           (Build (Standard Linux) false false 16) no_quota (DockerQuota 7) two_online);
    reflexivity.
Defined.

(** X17.  In every build [hardware_concurrency_current] is at most
    [get_hardware_concurrency_max] at the same moment when the
    operating system reports no more processors online than configured
    and the configured count fits [hardware_concurrency_t]. *)
Theorem current_at_most_max b dq os :
  0 <= get_nprocs os <= get_nprocs_conf os ->
  get_nprocs_conf os <= hc_max b ->
  hardware_concurrency_current b dq os <= get_hardware_concurrency_max b dq os.
Proof.
  intros Honline Hfits.
  unfold hardware_concurrency_current, get_hardware_concurrency_max,
    current_operand, max_operand, get_hardware_concurrency_max, max_operand.
  destruct (impl b) as [| | []]; try reflexivity.
  - destruct (bool_decide (value dq ≠ -1)); [reflexivity |].
    rewrite !to_hc_id by lia. lia.
  - rewrite to_hc_idempotent. reflexivity.
  - rewrite !to_hc_id by lia. lia.
Qed.

Lemma current_at_most_max_witness :
  hardware_concurrency_current release_docker no_quota two_online
  <= get_hardware_concurrency_max release_docker no_quota two_online.
Proof.
  apply (current_at_most_max release_docker no_quota two_online).
  - split; by_evaluation.
  - by_evaluation.
Defined.

(** X18.  From the file to the queries: when cpu.max holds a positive
    quota and period whose sum stays an [int] and whose rounded ratio
    fits [hardware_concurrency_t], the constructor of [docker_quota]
    succeeds and from then on both queries return that rounded ratio,
    whatever the operating system reports. *)
Theorem quota_file_sets_both_queries b m fd quota period :
  impl b = DockerLimits ->
  fs m !! cpu_max = Some fd ->
  file_read fd = ReadBytes (cpu_max_text quota period) ->
  close_verified b fd ->
  0 < quota -> 0 < period <= INT_MAX ->
  quota + period / 2 <= INT_MAX ->
  round_half_up_cores quota period <= hc_max b ->
  exists dq,
    docker_quota_t_ctor b m = Ret dq /\
    forall os,
      get_hardware_concurrency_max b dq os = round_half_up_cores quota period /\
      hardware_concurrency_current b dq os = round_half_up_cores quota period.
Proof.
  intros Hb Hfs Hread Hclose Hq Hp Hsum Hfits.
  assert (Hhalf : 0 <= period / 2) by (apply Z.div_pos; lia).
  assert (Hiq : in_int quota) by (unfold in_int, INT_MIN, INT_MAX in *; lia).
  assert (Hip : in_int period) by (unfold in_int, INT_MIN, INT_MAX in *; lia).
  exists (DockerQuota (round_half_up_cores quota period)). split.
  - unfold docker_quota_t_ctor.
    rewrite (get_docker_limit_cpu_max_text _ _ _ _ _ Hfs Hread Hclose
               (in_int_long _ Hiq) (in_int_long _ Hip)).
    rewrite !to_int_id by assumption.
    now rewrite docker_limit_round_half_up by lia.
  - intros os.
    assert (Hone : 1 <= round_half_up_cores quota period)
      by (unfold round_half_up_cores; lia).
    destruct (docker_queries_present b (DockerQuota (round_half_up_cores quota period))
                os Hb) as [-> ->]; [cbn; lia |].
    cbn. now rewrite to_hc_id by lia.
Qed.

Lemma quota_file_sets_both_queries_witness :
  exists dq,
    docker_quota_t_ctor release_docker
      (Machine {[ cpu_max := served (cpu_max_text 250000 100000) ]} [] [] []) = Ret dq /\
    forall os,
      get_hardware_concurrency_max release_docker dq os = 3 /\
      hardware_concurrency_current release_docker dq os = 3.
Proof.
  apply (quota_file_sets_both_queries release_docker _
           (served (cpu_max_text 250000 100000)) 250000 100000);
    try reflexivity; try (now left); try by_evaluation.
  split; by_evaluation.
Defined.

(** ** The weak definitions for Android *)

Lemma to_hc_minus_1 b : to_hc b (-1) = hc_max b.
Proof.
  unfold to_hc, hc_max. pose proof (hc_modulus_ge_2 b).
  rewrite <- (Z.mod_add (-1) 1 (hc_modulus b)) by lia.
  replace (-1 + 1 * hc_modulus b) with (hc_modulus b - 1) by lia.
  apply Z.mod_small. lia.
Qed.

(** X19.  Where the weak [get_nprocs] and [get_nprocs_conf] are the
    ones linked and no quota is in the way, the queries return what
    [sysconf] answers when it fits [int] and [hardware_concurrency_t];
    a [sysconf] that fails with -1 is not noticed and comes out as the
    largest value of [hardware_concurrency_t]. *)
Theorem weak_nprocs_through_queries b dq sc os :
  impl b = Standard Linux \/ (impl b = DockerLimits /\ value dq = -1) ->
  (in_int (SC_NPROCESSORS_CONF sc) -> 0 <= SC_NPROCESSORS_CONF sc <= hc_max b ->
   get_hardware_concurrency_max b dq (with_weak_nprocs sc os) = SC_NPROCESSORS_CONF sc) /\
  (in_int (SC_NPROCESSORS_ONLN sc) -> 0 <= SC_NPROCESSORS_ONLN sc <= hc_max b ->
   hardware_concurrency_current b dq (with_weak_nprocs sc os) = SC_NPROCESSORS_ONLN sc) /\
  (SC_NPROCESSORS_CONF sc = -1 ->
   get_hardware_concurrency_max b dq (with_weak_nprocs sc os) = hc_max b) /\
  (SC_NPROCESSORS_ONLN sc = -1 ->
   hardware_concurrency_current b dq (with_weak_nprocs sc os) = hc_max b).
Proof.
  intros Himpl.
  assert (H : get_hardware_concurrency_max b dq (with_weak_nprocs sc os)
              = to_hc b (weak_get_nprocs_conf sc) /\
              hardware_concurrency_current b dq (with_weak_nprocs sc os)
              = to_hc b (weak_get_nprocs sc)).
  { destruct Himpl as [Hb | [Hb Hq]].
    - unfold get_hardware_concurrency_max, hardware_concurrency_current,
        max_operand, current_operand. now rewrite Hb.
    - exact (docker_queries_absent b dq (with_weak_nprocs sc os) Hb Hq). }
  destruct H as [-> ->]. unfold weak_get_nprocs, weak_get_nprocs_conf.
  repeat split.
  - intros Hin Hfit. now rewrite to_int_id, to_hc_id.
  - intros Hin Hfit. now rewrite to_int_id, to_hc_id.
  - intros ->. apply to_hc_minus_1.
  - intros ->. apply to_hc_minus_1.
Qed.

Lemma weak_nprocs_through_queries_witness :
  get_hardware_concurrency_max debug_android no_quota
    (with_weak_nprocs (Sysconf 6 8) four_cores) = 8 /\
  hardware_concurrency_current debug_android no_quota
    (with_weak_nprocs (Sysconf (-1) 8) four_cores) = 255.
Proof.
  destruct (weak_nprocs_through_queries debug_android no_quota (Sysconf 6 8) four_cores)
    as (Hconf & _); [now left |].
  destruct (weak_nprocs_through_queries debug_android no_quota (Sysconf (-1) 8)
              four_cores) as (_ & _ & _ & Hfail); [now left |].
  split.
  - apply Hconf; split; by_evaluation.
  - apply Hfail. reflexivity.
Defined.

(** ** Witnesses for the lemmas on files that are missing or empty *)

Lemma unified_read_fails_witness :
  get_docker_limit debug_docker
    (Machine {[ cpu_max := unreadable;
                cpu_cfs_quota_us := kernel_file "200000";
                cpu_cfs_period_us := kernel_file "100000" ]}
             (chars "300000 100000") [] [])
  = Ret (-1).
Proof.
  apply (unified_read_fails debug_docker _ unreadable).
  - reflexivity.
  - now left.
  - now right.
Defined.

Lemma get_docker_limit_open_fails_witness :
  get_docker_limit debug_docker
    (Machine {[ cpu_cfs_quota_us := kernel_file "200000" ]} [] [] (chars "100000"))
  = Ret (-1).
Proof.
  apply (get_docker_limit_open_fails debug_docker
           (Machine {[ cpu_cfs_quota_us := kernel_file "200000" ]} [] []
                    (chars "100000"))).
  - reflexivity.
  - now right.
  - exists 200000, (-1). split; reflexivity.
Defined.
